(** * Concrete mix design calculators: a shallow embedding

    The repository holds two Streamlit scripts.

    - [streamlit_app.py] computes, for one cubic metre of concrete, the
      masses of cement, water, fine and coarse aggregate by the
      absolute-volume method (a top-level script, lines 16-32).
    - [streamlit_app3.py] defines [design_mix] (linear rule-of-thumb
      formulas) and [optimize_mix] (fixed substitution ratios plus two
      calls to [np.random.uniform]).

    The formulas are transcribed once, over an abstract Python number type
    (class [Number]), and read in two arithmetics:

    - [Q]: exact rational arithmetic, every decimal literal standing for the
      rational it denotes.  The algebraic laws are proved here, for all
      inputs.
    - [pynum]: Python's numeric tower as the interpreter runs it, unbounded
      [int] next to binary64 [float] (Rocq's primitive floats), with the
      int-to-float coercions and the exceptions of the arithmetic
      operators.  Concrete runs and exhaustive checks over the values the
      two select boxes offer are evaluated here.

    Division raises [ZeroDivisionError] in Python, so every formula returns
    a [result]. *)

From Stdlib Require Import ZArith QArith Lqa Lia List Bool.
From Stdlib Require Import Floats.PrimFloat Floats.SpecFloat Floats.FloatOps.
Import ListNotations.

Set Warnings "-inexact-float".

(** ** Exceptions and the error monad *)

Inductive exn : Set :=
| ZeroDivisionError
| OverflowError.

Inductive result (A : Type) : Type :=
| Ok (a : A)
| Raise (e : exn).

Arguments Ok {A} a.
Arguments Raise {A} e.

Definition bind {A B : Type} (r : result A) (k : A -> result B) : result B :=
  match r with
  | Ok a => k a
  | Raise e => Raise e
  end.

Definition lift2 {A B C : Type} (op : A -> B -> result C)
  (x : result A) (y : result B) : result C :=
  bind x (fun a => bind y (fun b => op a b)).

Declare Scope py_scope.
Delimit Scope py_scope with py.

Notation "x <- e ;; k" := (bind e (fun x => k))
  (at level 61, e at next level, right associativity) : py_scope.

(** ** Python numbers

    What the formulas need from a number type: integer literals, float
    literals (given by the decimal written in the source), and the four
    arithmetic operators, each of which may raise. *)

Class Number (T : Type) : Type := {
  int : Z -> T;
  flt : Q -> T;
  add : T -> T -> result T;
  sub : T -> T -> result T;
  mul : T -> T -> result T;
  truediv : T -> T -> result T
}.

Definition val {T : Type} (x : T) : result T := Ok x.

Notation "x + y" := (lift2 add x y) : py_scope.
Notation "x - y" := (lift2 sub x y) : py_scope.
Notation "x * y" := (lift2 mul x y) : py_scope.
Notation "x / y" := (lift2 truediv x y) : py_scope.

(** *** Exact rational arithmetic *)

Definition Qtruediv (x y : Q) : result Q :=
  if Qeq_bool y 0 then Raise ZeroDivisionError else Ok (x / y)%Q.

#[export] Instance Number_Q : Number Q := {
  int := inject_Z;
  flt := fun q => q;
  add := fun x y => Ok (x + y)%Q;
  sub := fun x y => Ok (x - y)%Q;
  mul := fun x y => Ok (x * y)%Q;
  truediv := Qtruediv
}.

(** *** Python's [int] and [float] *)

Inductive pynum : Set :=
| PyInt (z : Z)
| PyFloat (f : float).

(** [float(z)]: the nearest binary64 value, ties to even;
    [OverflowError] when it would not be finite. *)
Definition float_of_Z (z : Z) : float :=
  SF2Prim (binary_normalize prec emax z 0 false).

Definition finite_or_overflow (f : float) : result float :=
  if is_infinity f then Raise OverflowError else Ok f.

Definition int_to_float (z : Z) : result float :=
  finite_or_overflow (float_of_Z z).

(** [a / b] on two ints: the correctly rounded quotient.  The quotient is
    computed to at least 56 bits and a sticky bit records a non-zero
    remainder, so that rounding the pair is rounding the exact quotient. *)
Definition int_true_divide (a b : Z) : result float :=
  if (b =? 0)%Z then Raise ZeroDivisionError
  else
    let neg := xorb (a <? 0)%Z (b <? 0)%Z in
    let n := Z.abs a in
    let d := Z.abs b in
    let k := Z.max 0 (56 + Z.log2 d - Z.log2 n) in
    let q := (n * 2 ^ k / d)%Z in
    let r := ((n * 2 ^ k) mod d)%Z in
    let m := (2 * q + (if (r =? 0)%Z then 0 else 1))%Z in
    finite_or_overflow
      (SF2Prim (binary_normalize prec emax (if neg then - m else m)%Z (- k - 1) neg)).

(** A float literal: the binary64 value nearest to the decimal. *)
Definition float_literal (q : Q) : float :=
  match int_true_divide (Qnum q) (Zpos (Qden q)) with
  | Ok f => f
  | Raise _ => infinity
  end.

Definition float_truediv (x y : float) : result float :=
  if is_zero y then Raise ZeroDivisionError else Ok (x / y)%float.

(** Binary operators coerce an int operand to float when the other one is
    a float. *)
Definition coerce (iop : Z -> Z -> result pynum) (fop : float -> float -> result float)
  (x y : pynum) : result pynum :=
  match x, y with
  | PyInt a, PyInt b => iop a b
  | PyInt a, PyFloat g =>
      (f <- int_to_float a ;; r <- fop f g ;; Ok (PyFloat r))%py
  | PyFloat f, PyInt b =>
      (g <- int_to_float b ;; r <- fop f g ;; Ok (PyFloat r))%py
  | PyFloat f, PyFloat g =>
      (r <- fop f g ;; Ok (PyFloat r))%py
  end.

Definition py_add : pynum -> pynum -> result pynum :=
  coerce (fun a b => Ok (PyInt (a + b))) (fun f g => Ok (f + g)%float).
Definition py_sub : pynum -> pynum -> result pynum :=
  coerce (fun a b => Ok (PyInt (a - b))) (fun f g => Ok (f - g)%float).
Definition py_mul : pynum -> pynum -> result pynum :=
  coerce (fun a b => Ok (PyInt (a * b))) (fun f g => Ok (f * g)%float).
Definition py_truediv : pynum -> pynum -> result pynum :=
  coerce (fun a b => (r <- int_true_divide a b ;; Ok (PyFloat r))%py) float_truediv.

#[export] Instance Number_py : Number pynum := {
  int := PyInt;
  flt := fun q => PyFloat (float_literal q);
  add := py_add;
  sub := py_sub;
  mul := py_mul;
  truediv := py_truediv
}.

(** Comparison of Python numbers ([==], [<=]); an int is compared with a
    float by value, without rounding the int. *)
Definition Z_compare_float (z : Z) (f : float) : option comparison :=
  match Prim2SF f with
  | S754_nan => None
  | S754_infinity s => Some (if s then Gt else Lt)
  | S754_zero _ => Some (z ?= 0)%Z
  | S754_finite s m e =>
      let v := if s then Zneg m else Zpos m in
      Some (if (0 <=? e)%Z then (z ?= v * 2 ^ e)%Z else (z * 2 ^ (- e) ?= v)%Z)
  end.

Definition py_eqb (x y : pynum) : bool :=
  match x, y with
  | PyInt a, PyInt b => (a =? b)%Z
  | PyFloat f, PyFloat g => (f =? g)%float
  | PyInt a, PyFloat g =>
      match Z_compare_float a g with Some Eq => true | _ => false end
  | PyFloat f, PyInt b =>
      match Z_compare_float b f with Some Eq => true | _ => false end
  end.

Definition py_leb (x y : pynum) : bool :=
  match x, y with
  | PyInt a, PyInt b => (a <=? b)%Z
  | PyFloat f, PyFloat g => (f <=? g)%float
  | PyInt a, PyFloat g =>
      match Z_compare_float a g with Some Eq | Some Lt => true | _ => false end
  | PyFloat f, PyInt b =>
      match Z_compare_float b f with Some Eq | Some Gt => true | _ => false end
  end.

(** ** The results of the three computations

    Each Python dict has a fixed set of keys and is a record here; the
    field comment gives the key. *)

(** The variables the script [streamlit_app.py] assigns (lines 23-32). *)
Record quantities (T : Type) : Type := {
  cement_content : T;
  water_content : T;
  volume_cement : T;
  volume_water : T;
  volume_aggregates : T;
  coarse_ratio : T;
  fine_agg_mass : T;
  coarse_agg_mass : T
}.

Arguments cement_content {T} _.
Arguments water_content {T} _.
Arguments volume_cement {T} _.
Arguments volume_water {T} _.
Arguments volume_aggregates {T} _.
Arguments coarse_ratio {T} _.
Arguments fine_agg_mass {T} _.
Arguments coarse_agg_mass {T} _.

(** The dict [design_mix] returns. *)
Record base_mix (T : Type) : Type := {
  base_Cement : T;            (* "Cement (kg)" *)
  base_Water : T;             (* "Water (kg)" *)
  base_Fine_Aggregate : T;    (* "Fine Aggregate (kg)" *)
  base_Coarse_Aggregate : T;  (* "Coarse Aggregate (kg)" *)
  base_w_c_ratio : T          (* "w/c ratio" *)
}.

Arguments base_Cement {T} _.
Arguments base_Water {T} _.
Arguments base_Fine_Aggregate {T} _.
Arguments base_Coarse_Aggregate {T} _.
Arguments base_w_c_ratio {T} _.

(** The dict [optimize_mix] returns. *)
Record optimized_mix (T : Type) : Type := {
  opt_Cement : T;               (* "Cement (kg)" *)
  opt_SCMs : T;                 (* "SCMs (kg)" *)
  opt_Water : T;                (* "Water (kg)" *)
  opt_Fine_Aggregate : T;       (* "Fine Aggregate (kg)" *)
  opt_Fine_Recycled_Agg : T;    (* "Fine Recycled Agg. (kg)" *)
  opt_Coarse_Aggregate : T;     (* "Coarse Aggregate (kg)" *)
  opt_Coarse_Recycled_Agg : T;  (* "Coarse Recycled Agg. (kg)" *)
  opt_w_c_ratio : T;            (* "w/c ratio" *)
  opt_New_Strength : T;         (* "New Strength (MPa)" *)
  opt_New_Slump : T;            (* "New Slump (mm)" *)
  opt_CO2_Reduction : T;        (* "CO2 Reduction (%)" *)
  opt_Cost_Reduction : T        (* "Cost Reduction (%)" *)
}.

Arguments opt_Cement {T} _.
Arguments opt_SCMs {T} _.
Arguments opt_Water {T} _.
Arguments opt_Fine_Aggregate {T} _.
Arguments opt_Fine_Recycled_Agg {T} _.
Arguments opt_Coarse_Aggregate {T} _.
Arguments opt_Coarse_Recycled_Agg {T} _.
Arguments opt_w_c_ratio {T} _.
Arguments opt_New_Strength {T} _.
Arguments opt_New_Slump {T} _.
Arguments opt_CO2_Reduction {T} _.
Arguments opt_Cost_Reduction {T} _.

(** ** The random source

    [np.random.uniform] reads and advances NumPy's global generator.  The
    generator is a tape of the values its successive calls return and a
    position on it; that a value lies between [low] and [high] is a
    hypothesis on the tape ([admissible] below), not something the model
    computes. *)

Record RandomState (T : Type) : Type := {
  tape : nat -> T;
  pos : nat
}.

Arguments tape {T} _ _.
Arguments pos {T} _.

(** Computations that may raise and that use the generator.  The state is
    returned also when the computation raises: a draw made before the
    exception stays made. *)
Definition rand (T A : Type) : Type :=
  RandomState T -> result A * RandomState T.

Definition rbind {T A B : Type} (c : rand T A) (k : A -> rand T B) : rand T B :=
  fun g =>
    match c g with
    | (Ok a, g') => k a g'
    | (Raise e, g') => (Raise e, g')
    end.

Definition pure {T A : Type} (r : result A) : rand T A :=
  fun g => (r, g).

Definition uniform {T : Type} (low high : T) : rand T T :=
  fun g => (Ok (tape g (pos g)), {| tape := tape g; pos := S (pos g) |}).

Notation "x <~ c ;; k" := (rbind c (fun x => k))
  (at level 61, c at next level, right associativity) : py_scope.

(** ** The formulas *)

Section Formulas.

Context {T : Type} {number : Number T}.

Local Open Scope py_scope.

(** *** [streamlit_app.py] *)

Definition SG_cement : T := flt 3.15.
Definition SG_fine : T := flt 2.65.
Definition SG_coarse : T := flt 2.70.
Definition SG_water : T := flt 1.00.

(** The script, as a function of its three inputs ([fc] is read and
    never used). *)
Definition streamlit_app (fc w_c_ratio fine_ratio : T) : result (quantities T) :=
  cement_content <- val (int 400) ;;
  water_content <- val cement_content * val w_c_ratio ;;
  volume_cement <- val cement_content / (val SG_cement * val (int 1000)) ;;
  volume_water <- val water_content / (val SG_water * val (int 1000)) ;;
  volume_aggregates <- val (int 1) - (val volume_cement + val volume_water) ;;
  coarse_ratio <- val (int 1) - val fine_ratio ;;
  fine_agg_mass <-
    val volume_aggregates * val fine_ratio * val SG_fine * val (int 1000) ;;
  coarse_agg_mass <-
    val volume_aggregates * val coarse_ratio * val SG_coarse * val (int 1000) ;;
  Ok {| cement_content := cement_content;
        water_content := water_content;
        volume_cement := volume_cement;
        volume_water := volume_water;
        volume_aggregates := volume_aggregates;
        coarse_ratio := coarse_ratio;
        fine_agg_mass := fine_agg_mass;
        coarse_agg_mass := coarse_agg_mass |}.

(** *** [streamlit_app3.py] *)

Definition design_mix (strength slump : T) : result (base_mix T) :=
  cement <- val (int 350) + (val strength - val (int 20)) * val (int 5) ;;
  water <- val (int 180) + (val slump / val (int 150)) * val (int 20) ;;
  fine_agg <- val (int 700) - (val slump / val (int 150)) * val (int 50) ;;
  coarse_agg <- val (int 1100) - (val strength - val (int 20)) * val (int 10) ;;
  w_c_ratio <- val water / val cement ;;
  Ok {| base_Cement := cement;
        base_Water := water;
        base_Fine_Aggregate := fine_agg;
        base_Coarse_Aggregate := coarse_agg;
        base_w_c_ratio := w_c_ratio |}.

Definition optimize_mix (base : base_mix T) (strength slump : T)
  : rand T (optimized_mix T) :=
  cement <~ pure (val (base_Cement base) * val (flt 0.7)) ;;
  scms <~ pure (val (base_Cement base) * val (flt 0.3)) ;;
  coarse_nat <~ pure (val (base_Coarse_Aggregate base) * val (flt 0.8)) ;;
  coarse_recycled <~ pure (val (base_Coarse_Aggregate base) * val (flt 0.2)) ;;
  fine_nat <~ pure (val (base_Fine_Aggregate base) * val (flt 0.85)) ;;
  fine_recycled <~ pure (val (base_Fine_Aggregate base) * val (flt 0.15)) ;;
  water <~ pure (val (base_Water base) * val (flt 1.02)) ;;
  draw1 <~ uniform (int 0) (int 2) ;;
  new_strength <~ pure (val strength - val draw1) ;;
  draw2 <~ uniform (int (-10)) (int 10) ;;
  new_slump <~ pure (val slump + val draw2) ;;
  co2_reduction <~ pure (val (int 25)) ;;
  cost_reduction <~ pure (val (int 15)) ;;
  w_c <~ pure (val water / (val cement + val scms)) ;;
  pure (Ok {| opt_Cement := cement;
              opt_SCMs := scms;
              opt_Water := water;
              opt_Fine_Aggregate := fine_nat;
              opt_Fine_Recycled_Agg := fine_recycled;
              opt_Coarse_Aggregate := coarse_nat;
              opt_Coarse_Recycled_Agg := coarse_recycled;
              opt_w_c_ratio := w_c;
              opt_New_Strength := new_strength;
              opt_New_Slump := new_slump;
              opt_CO2_Reduction := co2_reduction;
              opt_Cost_Reduction := cost_reduction |}).

End Formulas.

(** The values the two select boxes of [streamlit_app3.py] offer:
    [list(range(20, 65, 5))] and [list(range(25, 155, 5))].  Both calls
    count upwards; [range] is Python's [range] for a step above zero, the
    type of [step] leaving out the zero step (a [ValueError] in Python)
    and the negative ones (which count downwards). *)
Definition range (start stop : Z) (step : positive) : list Z :=
  map (fun k => start + Zpos step * Z.of_nat k)%Z
      (seq 0 (Z.to_nat ((stop - start + Zpos step - 1) / Zpos step))).

Definition strength_options : list Z := range 20 65 5.
Definition slump_options : list Z := range 25 155 5.

(** ** Observations used in the statements *)

Section Observations.

Context {T : Type} {number : Number T}.

Local Open Scope py_scope.

(** The absolute volume of the mix: the cement and water volumes the
    script computed, and the volume of each aggregate recovered from its
    mass the way lines 26-27 turn a mass into a volume,
    [mass / (SG * 1000)]. *)
Definition absolute_volume (q : quantities T) : result T :=
  val (volume_cement q) + val (volume_water q)
  + val (fine_agg_mass q) / (val SG_fine * val (int 1000))
  + val (coarse_agg_mass q) / (val SG_coarse * val (int 1000)).

(** What each substitution of the optimizer adds up to. *)
Definition binder_total (o : optimized_mix T) : result T :=
  val (opt_Cement o) + val (opt_SCMs o).
Definition coarse_total (o : optimized_mix T) : result T :=
  val (opt_Coarse_Aggregate o) + val (opt_Coarse_Recycled_Agg o).
Definition fine_total (o : optimized_mix T) : result T :=
  val (opt_Fine_Aggregate o) + val (opt_Fine_Recycled_Agg o).

(** 1.02 times the water-cement ratio of the base mix. *)
Definition scaled_w_c_ratio (base : base_mix T) : result T :=
  val (flt 1.02) * val (base_w_c_ratio base).

(** The fields of the optimizer's dict that do not come from a draw. *)
Definition non_random (o : optimized_mix T) : list T :=
  [opt_Cement o; opt_SCMs o; opt_Water o;
   opt_Fine_Aggregate o; opt_Fine_Recycled_Agg o;
   opt_Coarse_Aggregate o; opt_Coarse_Recycled_Agg o;
   opt_w_c_ratio o; opt_CO2_Reduction o; opt_Cost_Reduction o].

(** The two calls of the page (lines 73 and 80): the base mix, then its
    optimization. *)
Definition designed_and_optimized (strength slump : T)
  : rand T (base_mix T * optimized_mix T) :=
  base <~ pure (design_mix strength slump) ;;
  optimized <~ optimize_mix base strength slump ;;
  pure (Ok (base, optimized)).

End Observations.

Definition two_draws_later {T : Type} (g : RandomState T) : RandomState T :=
  {| tape := tape g; pos := S (S (pos g)) |}.

(** *** In exact arithmetic *)

(** The first draw lies in [[0, 2]] and the second in [[-10, 10]]. *)
Definition admissible (g : RandomState Q) : Prop :=
  (0 <= tape g (pos g) <= 2 /\ -10 <= tape g (S (pos g)) <= 10)%Q.

(** A generator whose next two draws are [d1] and [d2]. *)
Definition draws {T : Type} (d1 d2 : T) : RandomState T :=
  {| tape := fun n => match n with O => d1 | _ => d2 end; pos := 0 |}.

(** The values [streamlit_app.py] assigns. *)
Definition streamlit_app_value (w_c_ratio fine_ratio : Q) : quantities Q :=
  let va := (1 - (400 / (3.15 * 1000) + 400 * w_c_ratio / (1.00 * 1000)))%Q in
  {| cement_content := 400;
     water_content := 400 * w_c_ratio;
     volume_cement := 400 / (3.15 * 1000);
     volume_water := 400 * w_c_ratio / (1.00 * 1000);
     volume_aggregates := va;
     coarse_ratio := 1 - fine_ratio;
     fine_agg_mass := va * fine_ratio * 2.65 * 1000;
     coarse_agg_mass := va * (1 - fine_ratio) * 2.70 * 1000 |}%Q.

(** The dict [design_mix] builds once the division went through. *)
Definition design_mix_value (strength slump : Q) : base_mix Q :=
  {| base_Cement := 350 + (strength - 20) * 5;
     base_Water := 180 + slump / 150 * 20;
     base_Fine_Aggregate := 700 - slump / 150 * 50;
     base_Coarse_Aggregate := 1100 - (strength - 20) * 10;
     base_w_c_ratio := (180 + slump / 150 * 20) / (350 + (strength - 20) * 5) |}%Q.

(** The dict [optimize_mix] builds once the division went through. *)
Definition optimize_mix_value (base : base_mix Q) (strength slump : Q)
  (g : RandomState Q) : optimized_mix Q :=
  {| opt_Cement := base_Cement base * 0.7;
     opt_SCMs := base_Cement base * 0.3;
     opt_Water := base_Water base * 1.02;
     opt_Fine_Aggregate := base_Fine_Aggregate base * 0.85;
     opt_Fine_Recycled_Agg := base_Fine_Aggregate base * 0.15;
     opt_Coarse_Aggregate := base_Coarse_Aggregate base * 0.8;
     opt_Coarse_Recycled_Agg := base_Coarse_Aggregate base * 0.2;
     opt_w_c_ratio :=
       base_Water base * 1.02 / (base_Cement base * 0.7 + base_Cement base * 0.3);
     opt_New_Strength := strength - tape g (pos g);
     opt_New_Slump := slump + tape g (S (pos g));
     opt_CO2_Reduction := 25;
     opt_Cost_Reduction := 15 |}%Q.

(** *** In Python arithmetic *)

(** Every pair of values of the two select boxes passes the test [P]. *)
Definition on_select_boxes (P : Z -> Z -> bool) : bool :=
  forallb (fun strength => forallb (P strength) slump_options) strength_options.

(** The two-decimal values from [lo/100] to [hi/100], which the widgets of
    [streamlit_app.py] step through (their step is 0.01). *)
Definition hundredths (lo hi : Z) : list Q :=
  map (fun k => k # 100) (range lo (hi + 1) 1).

Definition w_c_ratio_steps : list Q := hundredths 30 70.
Definition fine_ratio_steps : list Q := hundredths 30 60.

Definition on_widget_steps (P : Q -> Q -> bool) : bool :=
  forallb (fun w => forallb (P w) fine_ratio_steps) w_c_ratio_steps.

(** The page of [streamlit_app3.py] run on the ints [strength] and [slump]
    with the optimization button pressed, the generator about to return
    the floats [d1] and [d2]. *)
Definition page_run (strength slump : Z) (d1 d2 : float)
  : result (base_mix pynum * optimized_mix pynum) :=
  fst (designed_and_optimized (PyInt strength) (PyInt slump)
         (draws (PyFloat d1) (PyFloat d2))).

(** The script [streamlit_app.py] run on the default strength and the
    floats nearest to two decimals. *)
Definition script_run (w_c_ratio fine_ratio : Q) : result (quantities pynum) :=
  streamlit_app (PyInt 30) (flt w_c_ratio) (flt fine_ratio).

Definition holds {A : Type} (P : A -> bool) (r : result A) : bool :=
  match r with
  | Ok a => P a
  | Raise _ => false
  end.

Definition py_nonneg (x : pynum) : bool := py_leb (PyInt 0) x.

(** [|x - y| <= tol] *)
Definition py_close (tol : float) (x y : pynum) : bool :=
  match py_sub x y with
  | Ok (PyFloat d) => (abs d <=? tol)%float
  | Ok (PyInt d) => py_leb (PyInt (Z.abs d)) (PyFloat tol)
  | Raise _ => false
  end.

Definition nonneg_quantities (q : quantities pynum) : bool :=
  py_nonneg (cement_content q) && py_nonneg (water_content q)
  && py_nonneg (fine_agg_mass q) && py_nonneg (coarse_agg_mass q).

Definition nonneg_base (b : base_mix pynum) : bool :=
  py_nonneg (base_Cement b) && py_nonneg (base_Water b)
  && py_nonneg (base_Fine_Aggregate b) && py_nonneg (base_Coarse_Aggregate b).

Definition volume_balanced (tol : float) (q : quantities pynum) : bool :=
  holds (fun v => py_close tol v (PyInt 1)) (absolute_volume q).

Definition conserves_mass (p : base_mix pynum * optimized_mix pynum) : bool :=
  let (b, o) := p in
  holds (py_eqb (base_Cement b)) (binder_total o)
  && holds (py_eqb (base_Coarse_Aggregate b)) (coarse_total o)
  && holds (py_eqb (base_Fine_Aggregate b)) (fine_total o).

Definition ratio_scaled_within (tol : float) (p : base_mix pynum * optimized_mix pynum) : bool :=
  let (b, o) := p in
  holds (py_close tol (opt_w_c_ratio o)) (scaled_w_c_ratio b).

(** ** The rest of the page of [streamlit_app3.py]

    Lines 73-83: the base mix is rounded entry by entry for display
    ([round(v, 1)]), and when the button is pressed so is the optimized
    mix. *)

(** The integer nearest to [p / q], a tie going to the even one. *)
Definition round_half_even (p : Z) (q : positive) : Z :=
  let fl := (p / Zpos q)%Z in
  let r := (p mod Zpos q)%Z in
  match (2 * r ?= Zpos q)%Z with
  | Lt => fl
  | Gt => (fl + 1)%Z
  | Eq => if Z.even fl then fl else (fl + 1)%Z
  end.

(** [round(x, ndigits)] on a rational. *)
Definition Q_round (x : Q) (ndigits : nat) : Q :=
  let scale := (10 ^ Z.of_nat ndigits)%Z in
  (inject_Z (round_half_even (Qnum x * scale) (Qden x)) / inject_Z scale)%Q.

(** [round(x, ndigits)] on a float: the exact value of [x] is rounded to
    [ndigits] decimals, half to even, and the float nearest to that decimal
    is returned ([OverflowError] when it is not finite); zeros, infinities
    and NaN round to themselves, and a negative value that rounds to zero
    gives [-0.0]. *)
Definition float_round (f : float) (ndigits : nat) : result float :=
  match Prim2SF f with
  | S754_finite s m e =>
      let v := if s then Zneg m else Zpos m in
      let scale := (10 ^ Z.of_nat ndigits)%Z in
      let n := if (0 <=? e)%Z then (v * 2 ^ e * scale)%Z
               else round_half_even (v * scale) (Z.to_pos (2 ^ (- e))) in
      if (n =? 0)%Z then Ok (if s then neg_zero else zero)
      else match int_true_divide n scale with
           | Ok r => Ok r
           | Raise _ => Raise OverflowError
           end
  | _ => Ok f
  end.

(** [round(v, ndigits)] with [ndigits >= 0]: an int is returned as it
    is. *)
Definition py_round (v : pynum) (ndigits : nat) : result pynum :=
  match v with
  | PyInt z => Ok (PyInt z)
  | PyFloat f => (r <- float_round f ndigits ;; Ok (PyFloat r))%py
  end.

Class Rounding (T : Type) : Type := {
  round : T -> nat -> result T
}.

#[export] Instance Rounding_Q : Rounding Q := {
  round := fun x ndigits => Ok (Q_round x ndigits)
}.

#[export] Instance Rounding_py : Rounding pynum := {
  round := py_round
}.

Section Page.

Context {T : Type} {number : Number T} {rounding : Rounding T}.

Local Open Scope py_scope.

(** [{k: round(v, 1) for k, v in base_mix.items()}] (line 75), the entries
    in the order of the dict. *)
Definition round_base (base : base_mix T) : result (base_mix T) :=
  cement <- round (base_Cement base) 1 ;;
  water <- round (base_Water base) 1 ;;
  fine_agg <- round (base_Fine_Aggregate base) 1 ;;
  coarse_agg <- round (base_Coarse_Aggregate base) 1 ;;
  w_c_ratio <- round (base_w_c_ratio base) 1 ;;
  Ok {| base_Cement := cement;
        base_Water := water;
        base_Fine_Aggregate := fine_agg;
        base_Coarse_Aggregate := coarse_agg;
        base_w_c_ratio := w_c_ratio |}.

(** Line 81; every value of the dict is an int or a float, so every entry
    is rounded. *)
Definition round_optimized (o : optimized_mix T) : result (optimized_mix T) :=
  cement <- round (opt_Cement o) 1 ;;
  scms <- round (opt_SCMs o) 1 ;;
  water <- round (opt_Water o) 1 ;;
  fine_nat <- round (opt_Fine_Aggregate o) 1 ;;
  fine_recycled <- round (opt_Fine_Recycled_Agg o) 1 ;;
  coarse_nat <- round (opt_Coarse_Aggregate o) 1 ;;
  coarse_recycled <- round (opt_Coarse_Recycled_Agg o) 1 ;;
  w_c <- round (opt_w_c_ratio o) 1 ;;
  new_strength <- round (opt_New_Strength o) 1 ;;
  new_slump <- round (opt_New_Slump o) 1 ;;
  co2_reduction <- round (opt_CO2_Reduction o) 1 ;;
  cost_reduction <- round (opt_Cost_Reduction o) 1 ;;
  Ok {| opt_Cement := cement;
        opt_SCMs := scms;
        opt_Water := water;
        opt_Fine_Aggregate := fine_nat;
        opt_Fine_Recycled_Agg := fine_recycled;
        opt_Coarse_Aggregate := coarse_nat;
        opt_Coarse_Recycled_Agg := coarse_recycled;
        opt_w_c_ratio := w_c;
        opt_New_Strength := new_strength;
        opt_New_Slump := new_slump;
        opt_CO2_Reduction := co2_reduction;
        opt_Cost_Reduction := cost_reduction |}.

(** The page (lines 73-83): the table of the base mix, or the exception
    that ended the run before it was shown; the table of the optimized
    mix when [button] is pressed, or the exception that ended the run
    after the first table was shown; the generator afterwards. *)
Definition page (strength slump : T) (button : bool) (g : RandomState T)
  : result (base_mix T) * option (result (optimized_mix T)) * RandomState T :=
  match design_mix strength slump with
  | Raise e => (Raise e, None, g)
  | Ok base =>
      match round_base base with
      | Raise e => (Raise e, None, g)
      | Ok results =>
          if button then
            match optimize_mix base strength slump g with
            | (Ok optimized, g') => (Ok results, Some (round_optimized optimized), g')
            | (Raise e, g') => (Ok results, Some (Raise e), g')
            end
          else (Ok results, None, g)
      end
  end.

(** The mass of one cubic metre of each mix, summed in the order of the
    dict. *)
Definition quantities_total (q : quantities T) : result T :=
  val (cement_content q) + val (water_content q)
  + val (fine_agg_mass q) + val (coarse_agg_mass q).

Definition base_total (b : base_mix T) : result T :=
  val (base_Cement b) + val (base_Water b)
  + val (base_Fine_Aggregate b) + val (base_Coarse_Aggregate b).

Definition optimized_total (o : optimized_mix T) : result T :=
  val (opt_Cement o) + val (opt_SCMs o) + val (opt_Water o)
  + val (opt_Fine_Aggregate o) + val (opt_Fine_Recycled_Agg o)
  + val (opt_Coarse_Aggregate o) + val (opt_Coarse_Recycled_Agg o).

(** The mass of the base mix plus the two per cent of water the optimizer
    adds (line 36). *)
Definition base_total_with_added_water (b : base_mix T) : result T :=
  base_total b + val (flt 0.02) * val (base_Water b).

End Page.

(** *** More tests in Python arithmetic *)

Definition py_ltb (x y : pynum) : bool := py_leb x y && negb (py_eqb x y).

Definition py_between (lo hi x : pynum) : bool := py_leb lo x && py_leb x hi.

(** Each element of a list with the next one. *)
Definition adjacent {A : Type} (l : list A) : list (A * A) := combine l (tl l).

(** The base mix [design_mix] computed for two ints and the table the
    page shows for it (the button not pressed). *)
Definition base_table (strength slump : Z) : result (base_mix pynum * base_mix pynum) :=
  match design_mix (PyInt strength) (PyInt slump) with
  | Ok b =>
      match fst (fst (page (PyInt strength) (PyInt slump) false
                        (draws (PyFloat 0) (PyFloat 0)))) with
      | Ok r => Ok (b, r)
      | Raise e => Raise e
      end
  | Raise e => Raise e
  end.

(** The water-cement ratio [design_mix] computes for two ints. *)
Definition ratio_of (strength slump : Z) : result pynum :=
  (b <- design_mix (PyInt strength) (PyInt slump) ;; Ok (base_w_c_ratio b))%py.

Definition result_ltb (x y : result pynum) : bool :=
  match x, y with
  | Ok a, Ok b => py_ltb a b
  | _, _ => false
  end.

Definition shown_close (p : base_mix pynum * base_mix pynum) : bool :=
  let (b, r) := p in
  py_eqb (base_Cement r) (base_Cement b)
  && py_eqb (base_Coarse_Aggregate r) (base_Coarse_Aggregate b)
  && py_close 0.05 (base_Water r) (base_Water b)
  && py_close 0.05 (base_Fine_Aggregate r) (base_Fine_Aggregate b)
  && py_close 0.05 (base_w_c_ratio r) (base_w_c_ratio b).

Definition shown_ratio (p : base_mix pynum * base_mix pynum) : bool :=
  existsb (py_eqb (base_w_c_ratio (snd p)))
    [PyFloat 0.3; PyFloat 0.4; PyFloat 0.5; PyFloat 0.6].

Definition shown_again (p : base_mix pynum * base_mix pynum) : bool :=
  holds (fun r' =>
           py_eqb (base_Cement r') (base_Cement (snd p))
           && py_eqb (base_Water r') (base_Water (snd p))
           && py_eqb (base_Fine_Aggregate r') (base_Fine_Aggregate (snd p))
           && py_eqb (base_Coarse_Aggregate r') (base_Coarse_Aggregate (snd p))
           && py_eqb (base_w_c_ratio r') (base_w_c_ratio (snd p)))
        (round_base (snd p)).

Definition ratio_increases (p : base_mix pynum * optimized_mix pynum) : bool :=
  let (b, o) := p in py_ltb (base_w_c_ratio b) (opt_w_c_ratio o).

(** The two aggregate masses of the script are non-negative when the
    ratio is at most 2.18, and negative otherwise. *)
Definition aggregate_signs (w_c_ratio fine_ratio : Q) : bool :=
  holds (fun q =>
           Bool.eqb (py_nonneg (fine_agg_mass q)) (Qle_bool w_c_ratio 2.18)
           && Bool.eqb (py_nonneg (coarse_agg_mass q)) (Qle_bool w_c_ratio 2.18))
        (script_run w_c_ratio fine_ratio).

(** The script run at the ratios [w1] and [w2]: the second run has
    strictly more water and strictly less of both aggregates. *)
Definition script_wetter (w1 w2 fine_ratio : Q) : bool :=
  match script_run w1 fine_ratio, script_run w2 fine_ratio with
  | Ok q, Ok q_wetter =>
      py_ltb (water_content q) (water_content q_wetter)
      && py_ltb (fine_agg_mass q_wetter) (fine_agg_mass q)
      && py_ltb (coarse_agg_mass q_wetter) (coarse_agg_mass q)
  | _, _ => false
  end.

(** The script run at the fine fractions [f1] and [f2]: the second run has
    strictly more fine and strictly less coarse aggregate. *)
Definition script_finer (w_c_ratio f1 f2 : Q) : bool :=
  match script_run w_c_ratio f1, script_run w_c_ratio f2 with
  | Ok q, Ok q_finer =>
      py_ltb (fine_agg_mass q) (fine_agg_mass q_finer)
      && py_ltb (coarse_agg_mass q_finer) (coarse_agg_mass q)
  | _, _ => false
  end.



(** The seven masses of the optimized mix add up to the base masses plus
    the added water, up to [tol]. *)
Definition total_within (tol : float) (p : base_mix pynum * optimized_mix pynum) : bool :=
  let (b, o) := p in
  match optimized_total o, base_total_with_added_water b with
  | Ok total, Ok expected => py_close tol total expected
  | _, _ => false
  end.

(** * Properties *)

Local Open Scope Q_scope.

(** ** Auxiliary facts *)

(** *** Division of rationals *)

Lemma Qtruediv_ok (x y : Q) : ~ y == 0 -> Qtruediv x y = Ok (x / y).
Proof.
  intros Hy. unfold Qtruediv.
  destruct (Qeq_bool y 0) eqn:E; [ | reflexivity ].
  apply Qeq_bool_eq in E. contradiction.
Qed.

Lemma Qtruediv_raise (x y : Q) : y == 0 -> Qtruediv x y = Raise ZeroDivisionError.
Proof.
  intros Hy. unfold Qtruediv.
  now rewrite (Qeq_eq_bool _ _ Hy).
Qed.

Lemma Qtruediv_inv (x y r : Q) : Qtruediv x y = Ok r -> ~ y == 0 /\ r = x / y.
Proof.
  unfold Qtruediv. destruct (Qeq_bool y 0) eqn:E; [ discriminate | ].
  intros [= <-]. split; [ | reflexivity ].
  intros Hy. rewrite (Qeq_eq_bool _ _ Hy) in E. discriminate.
Qed.

(** *** The three computations in exact arithmetic *)

Lemma streamlit_app_ok (fc w_c_ratio fine_ratio : Q) :
  streamlit_app fc w_c_ratio fine_ratio = Ok (streamlit_app_value w_c_ratio fine_ratio).
Proof. reflexivity. Qed.

Lemma design_mix_unfold (strength slump : Q) :
  design_mix strength slump =
  bind (Qtruediv (180 + slump / 150 * 20) (350 + (strength - 20) * 5))
       (fun r => Ok {| base_Cement := 350 + (strength - 20) * 5;
                       base_Water := 180 + slump / 150 * 20;
                       base_Fine_Aggregate := 700 - slump / 150 * 50;
                       base_Coarse_Aggregate := 1100 - (strength - 20) * 10;
                       base_w_c_ratio := r |}).
Proof. reflexivity. Qed.

Lemma design_mix_ok (strength slump : Q) :
  ~ 350 + (strength - 20) * 5 == 0 ->
  design_mix strength slump = Ok (design_mix_value strength slump).
Proof.
  intros Hc. rewrite design_mix_unfold, (Qtruediv_ok _ _ Hc). reflexivity.
Qed.

Lemma design_mix_raise (strength slump : Q) :
  350 + (strength - 20) * 5 == 0 ->
  design_mix strength slump = Raise ZeroDivisionError.
Proof.
  intros Hc. rewrite design_mix_unfold, (Qtruediv_raise _ _ Hc). reflexivity.
Qed.

Lemma design_mix_inv (strength slump : Q) (base : base_mix Q) :
  design_mix strength slump = Ok base ->
  base = design_mix_value strength slump /\ ~ base_Cement base == 0.
Proof.
  rewrite design_mix_unfold.
  destruct (Qtruediv _ _) as [r | e] eqn:E; cbn; [ | discriminate ].
  apply Qtruediv_inv in E as [Hc ->]. intros [= <-].
  split; [ reflexivity | exact Hc ].
Qed.

Lemma optimize_mix_unfold (base : base_mix Q) (strength slump : Q) (g : RandomState Q) :
  optimize_mix base strength slump g =
  (bind (Qtruediv (base_Water base * 1.02)
                  (base_Cement base * 0.7 + base_Cement base * 0.3))
        (fun r => Ok {| opt_Cement := base_Cement base * 0.7;
                        opt_SCMs := base_Cement base * 0.3;
                        opt_Water := base_Water base * 1.02;
                        opt_Fine_Aggregate := base_Fine_Aggregate base * 0.85;
                        opt_Fine_Recycled_Agg := base_Fine_Aggregate base * 0.15;
                        opt_Coarse_Aggregate := base_Coarse_Aggregate base * 0.8;
                        opt_Coarse_Recycled_Agg := base_Coarse_Aggregate base * 0.2;
                        opt_w_c_ratio := r;
                        opt_New_Strength := strength - tape g (pos g);
                        opt_New_Slump := slump + tape g (S (pos g));
                        opt_CO2_Reduction := 25;
                        opt_Cost_Reduction := 15 |}),
   two_draws_later g).
Proof.
  unfold optimize_mix, rbind, pure, uniform. cbn.
  destruct (Qtruediv _ _); reflexivity.
Qed.

Lemma substitution_denominator (c : Q) : ~ c == 0 -> ~ c * 0.7 + c * 0.3 == 0.
Proof. intros Hc H. apply Hc. lra. Qed.

Lemma optimize_mix_ok (base : base_mix Q) (strength slump : Q) (g : RandomState Q) :
  ~ base_Cement base == 0 ->
  optimize_mix base strength slump g =
  (Ok (optimize_mix_value base strength slump g), two_draws_later g).
Proof.
  intros Hc. rewrite optimize_mix_unfold.
  rewrite (Qtruediv_ok _ _ (substitution_denominator _ Hc)). reflexivity.
Qed.

Lemma optimize_mix_raise (base : base_mix Q) (strength slump : Q) (g : RandomState Q) :
  base_Cement base == 0 ->
  optimize_mix base strength slump g = (Raise ZeroDivisionError, two_draws_later g).
Proof.
  intros Hc. rewrite optimize_mix_unfold, Qtruediv_raise; [ reflexivity | ].
  rewrite Hc. reflexivity.
Qed.

(** *** The three computations in any arithmetic

    What a returned value holds, whatever the number type: each field is
    the result of the operations the source applies, in the source's
    order. *)

Section AnyArithmetic.

Context {T : Type} {number : Number T}.

Ltac invert_run H :=
  repeat match type of H with
         | context [match ?x with _ => _ end] => destruct x eqn:?; try discriminate
         end.

Lemma streamlit_app_inv (fc w_c_ratio fine_ratio : T) (q : quantities T) :
  streamlit_app fc w_c_ratio fine_ratio = Ok q ->
  cement_content q = int 400
  /\ mul (cement_content q) w_c_ratio = Ok (water_content q)
  /\ (val (cement_content q) / (val SG_cement * val (int 1000)))%py
     = Ok (volume_cement q)
  /\ (val (water_content q) / (val SG_water * val (int 1000)))%py
     = Ok (volume_water q)
  /\ (val (int 1) - (val (volume_cement q) + val (volume_water q)))%py
     = Ok (volume_aggregates q)
  /\ sub (int 1) fine_ratio = Ok (coarse_ratio q)
  /\ (val (volume_aggregates q) * val fine_ratio * val SG_fine * val (int 1000))%py
     = Ok (fine_agg_mass q)
  /\ (val (volume_aggregates q) * val (coarse_ratio q) * val SG_coarse * val (int 1000))%py
     = Ok (coarse_agg_mass q).
Proof.
  unfold streamlit_app, val, lift2, bind.
  intros H. invert_run H.
  injection H as <-. cbn.
  repeat split; assumption.
Qed.

Lemma design_mix_inv_any (strength slump : T) (m : base_mix T) :
  design_mix strength slump = Ok m ->
  (val (int 350) + (val strength - val (int 20)) * val (int 5))%py
  = Ok (base_Cement m)
  /\ (val (int 180) + (val slump / val (int 150)) * val (int 20))%py
     = Ok (base_Water m)
  /\ (val (int 700) - (val slump / val (int 150)) * val (int 50))%py
     = Ok (base_Fine_Aggregate m)
  /\ (val (int 1100) - (val strength - val (int 20)) * val (int 10))%py
     = Ok (base_Coarse_Aggregate m)
  /\ truediv (base_Water m) (base_Cement m) = Ok (base_w_c_ratio m).
Proof.
  unfold design_mix, val, lift2, bind.
  intros H. invert_run H.
  injection H as <-. cbn.
  repeat split; assumption.
Qed.

Lemma optimize_mix_inv (base : base_mix T) (strength slump : T)
  (g g' : RandomState T) (o : optimized_mix T) :
  optimize_mix base strength slump g = (Ok o, g') ->
  mul (base_Cement base) (flt 0.7) = Ok (opt_Cement o)
  /\ mul (base_Cement base) (flt 0.3) = Ok (opt_SCMs o)
  /\ mul (base_Coarse_Aggregate base) (flt 0.8) = Ok (opt_Coarse_Aggregate o)
  /\ mul (base_Coarse_Aggregate base) (flt 0.2) = Ok (opt_Coarse_Recycled_Agg o)
  /\ mul (base_Fine_Aggregate base) (flt 0.85) = Ok (opt_Fine_Aggregate o)
  /\ mul (base_Fine_Aggregate base) (flt 0.15) = Ok (opt_Fine_Recycled_Agg o)
  /\ mul (base_Water base) (flt 1.02) = Ok (opt_Water o)
  /\ (val (opt_Water o) / (val (opt_Cement o) + val (opt_SCMs o)))%py
     = Ok (opt_w_c_ratio o)
  /\ sub strength (tape g (pos g)) = Ok (opt_New_Strength o)
  /\ add slump (tape g (S (pos g))) = Ok (opt_New_Slump o)
  /\ opt_CO2_Reduction o = int 25
  /\ opt_Cost_Reduction o = int 15
  /\ g' = two_draws_later g.
Proof.
  unfold optimize_mix, rbind, pure, uniform, val, lift2, bind. cbn.
  intros H.
  invert_run H.
  injection H as <- <-. cbn.
  repeat split; assumption.
Qed.

(** Two returning runs on the same base mix agree outside the two drawn
    fields, whatever the generators. *)
Lemma optimize_mix_non_random (base : base_mix T) (strength slump : T)
  (g1 g2 g1' g2' : RandomState T) (o1 o2 : optimized_mix T) :
  optimize_mix base strength slump g1 = (Ok o1, g1') ->
  optimize_mix base strength slump g2 = (Ok o2, g2') ->
  non_random o1 = non_random o2.
Proof.
  intros H1 H2.
  apply optimize_mix_inv in H1
    as (Hc & Hs & Hcn & Hcr & Hfn & Hfr & Hw & Hr & _ & _ & Hco2 & Hcost & _).
  apply optimize_mix_inv in H2
    as (Hc' & Hs' & Hcn' & Hcr' & Hfn' & Hfr' & Hw' & Hr' & _ & _ & Hco2' & Hcost' & _).
  assert (Ec : opt_Cement o1 = opt_Cement o2) by congruence.
  assert (Es : opt_SCMs o1 = opt_SCMs o2) by congruence.
  assert (Ew : opt_Water o1 = opt_Water o2) by congruence.
  rewrite Ec, Es, Ew in Hr.
  unfold non_random.
  repeat (apply f_equal2; [ congruence | ]). reflexivity.
Qed.

End AnyArithmetic.

(** *** Python's literals and integer division

    The float literals of the two scripts denote the binary64 values
    Rocq's own parser gives them, and on the ints of the select boxes the
    quotient by 150 is the quotient of the two floats. *)

Lemma float_literals_of_the_source :
  map float_literal [3.15; 2.65; 2.70; 1.00; 0.7; 0.3; 0.8; 0.2; 0.85; 0.15; 1.02]
  = [3.15; 2.65; 2.70; 1.00; 0.7; 0.3; 0.8; 0.2; 0.85; 0.15; 1.02]%float.
Proof. vm_compute. reflexivity. Qed.

Lemma slump_quotients :
  map (fun slump => int_true_divide slump 150) slump_options
  = map (fun slump => Ok (float_of_Z slump / 150)%float) slump_options.
Proof. vm_compute. reflexivity. Qed.

(** *** Checks by evaluation *)

Lemma holds_inv {A : Type} (P : A -> bool) (r : result A) :
  holds P r = true -> exists a, r = Ok a /\ P a = true.
Proof.
  destruct r as [a | e]; cbn; [ | discriminate ].
  intros H. exists a. split; [ reflexivity | exact H ].
Qed.

Lemma on_select_boxes_spec (P : Z -> Z -> bool) :
  on_select_boxes P = true ->
  forall strength slump : Z,
    In strength strength_options -> In slump slump_options ->
    P strength slump = true.
Proof.
  unfold on_select_boxes. intros H strength slump Hs Hl.
  rewrite forallb_forall in H. specialize (H strength Hs).
  rewrite forallb_forall in H. exact (H slump Hl).
Qed.

Lemma on_widget_steps_spec (P : Q -> Q -> bool) :
  on_widget_steps P = true ->
  forall w f : Q,
    In w w_c_ratio_steps -> In f fine_ratio_steps ->
    P w f = true.
Proof.
  unfold on_widget_steps. intros H w f Hw Hf.
  rewrite forallb_forall in H. specialize (H w Hw).
  rewrite forallb_forall in H. exact (H f Hf).
Qed.

Ltac by_evaluation := intros; vm_compute; reflexivity.

(** ** The volumetric calculator ([streamlit_app.py]) *)

Lemma absolute_volume_is_one (w_c_ratio fine_ratio : Q) :
  let q := streamlit_app_value w_c_ratio fine_ratio in
  volume_cement q + volume_water q
  + fine_agg_mass q / (2.65 * 1000) + coarse_agg_mass q / (2.70 * 1000) == 1.
Proof. cbn. field. Qed.

Lemma aggregate_volume_positive (w_c_ratio : Q) :
  w_c_ratio <= 0.7 ->
  0 < 1 - (400 / (3.15 * 1000) + 400 * w_c_ratio / (1.00 * 1000)).
Proof.
  intros Hw.
  setoid_replace (400 / (3.15 * 1000)) with (8 # 63) by reflexivity.
  setoid_replace (400 * w_c_ratio / (1.00 * 1000)) with (0.4 * w_c_ratio) by field.
  lra.
Qed.

Lemma widget_steps_balanced :
  on_widget_steps (fun w f => holds (volume_balanced 0x1p-52) (script_run w f)) = true.
Proof. by_evaluation. Qed.

Lemma widget_steps_nonneg :
  on_widget_steps (fun w f => holds nonneg_quantities (script_run w f)) = true.
Proof. by_evaluation. Qed.

(** C1. For every water-cement ratio in [[0.3, 0.7]] and every fine
    aggregate fraction in [[0.3, 0.6]] the script returns, and the
    absolute volumes add up to one cubic metre: the cement and water
    volumes it computed, each its mass divided by [SG * 1000], plus each
    aggregate mass divided by its [SG * 1000], make exactly 1 in rational
    arithmetic.  In Python's floats, on every pair of two-decimal values
    of the two widgets, the same sum is within [2^-52] of 1. *)
Theorem volume_balance :
  (forall fc w_c_ratio fine_ratio : Q,
     0.3 <= w_c_ratio <= 0.7 -> 0.3 <= fine_ratio <= 0.6 ->
     exists q,
       streamlit_app fc w_c_ratio fine_ratio = Ok q
       /\ volume_cement q = cement_content q / (3.15 * 1000)
       /\ volume_water q = water_content q / (1.00 * 1000)
       /\ absolute_volume q
          = Ok (volume_cement q + volume_water q
                + fine_agg_mass q / (2.65 * 1000)
                + coarse_agg_mass q / (2.70 * 1000))
       /\ volume_cement q + volume_water q
          + fine_agg_mass q / (2.65 * 1000)
          + coarse_agg_mass q / (2.70 * 1000) == 1)
  /\ (forall w_c_ratio fine_ratio : Q,
        In w_c_ratio w_c_ratio_steps -> In fine_ratio fine_ratio_steps ->
        exists q v,
          script_run w_c_ratio fine_ratio = Ok q
          /\ absolute_volume q = Ok v
          /\ py_close 0x1p-52 v (PyInt 1) = true).
Proof.
  split.
  - intros fc w f _ _.
    exists (streamlit_app_value w f).
    rewrite streamlit_app_ok.
    repeat split. apply absolute_volume_is_one.
  - intros w f Hw Hf.
    pose proof (on_widget_steps_spec _ widget_steps_balanced w f Hw Hf) as H.
    apply holds_inv in H as [q [Hq H]].
    apply holds_inv in H as [v [Hv H]].
    exists q, v. repeat split; assumption.
Qed.

Lemma volume_balance_witness :
  exists q,
    streamlit_app (30 : Q) 0.5 0.4 = Ok q
    /\ volume_cement q = cement_content q / (3.15 * 1000)
    /\ volume_water q = water_content q / (1.00 * 1000)
    /\ absolute_volume q
       = Ok (volume_cement q + volume_water q
             + fine_agg_mass q / (2.65 * 1000)
             + coarse_agg_mass q / (2.70 * 1000))
    /\ volume_cement q + volume_water q
       + fine_agg_mass q / (2.65 * 1000)
       + coarse_agg_mass q / (2.70 * 1000) == 1.
Proof.
  apply (proj1 volume_balance 30 0.5 0.4); split; vm_compute; discriminate.
Defined.

(** C2. For every water-cement ratio in [[0.3, 0.7]] and every fine
    aggregate fraction in [[0.3, 0.6]] the four masses the script computes
    (cement, water, fine aggregate, coarse aggregate) are non-negative: in
    rational arithmetic for all such inputs, in Python's floats on every
    pair of two-decimal values of the two widgets. *)
Theorem volumetric_masses_nonneg :
  (forall fc w_c_ratio fine_ratio : Q,
     0.3 <= w_c_ratio <= 0.7 -> 0.3 <= fine_ratio <= 0.6 ->
     exists q,
       streamlit_app fc w_c_ratio fine_ratio = Ok q
       /\ 0 <= cement_content q
       /\ 0 <= water_content q
       /\ 0 <= fine_agg_mass q
       /\ 0 <= coarse_agg_mass q)
  /\ (forall w_c_ratio fine_ratio : Q,
        In w_c_ratio w_c_ratio_steps -> In fine_ratio fine_ratio_steps ->
        exists q,
          script_run w_c_ratio fine_ratio = Ok q
          /\ py_leb (PyInt 0) (cement_content q) = true
          /\ py_leb (PyInt 0) (water_content q) = true
          /\ py_leb (PyInt 0) (fine_agg_mass q) = true
          /\ py_leb (PyInt 0) (coarse_agg_mass q) = true).
Proof.
  split.
  - intros fc w f [Hw1 Hw2] [Hf1 Hf2].
    exists (streamlit_app_value w f).
    split; [ apply streamlit_app_ok | ]. cbn.
    pose proof (aggregate_volume_positive w Hw2) as Hva.
    set (va := 1 - _) in *.
    repeat split; [ lra | lra | nra | nra ].
  - intros w f Hw Hf.
    pose proof (on_widget_steps_spec _ widget_steps_nonneg w f Hw Hf) as H.
    apply holds_inv in H as [q [Hq H]].
    unfold nonneg_quantities, py_nonneg in H.
    repeat (apply andb_prop in H as [H ?]).
    exists q. repeat split; assumption.
Qed.

Lemma volumetric_masses_nonneg_witness :
  exists q,
    streamlit_app (30 : Q) 0.5 0.4 = Ok q
    /\ 0 <= cement_content q /\ 0 <= water_content q
    /\ 0 <= fine_agg_mass q /\ 0 <= coarse_agg_mass q.
Proof.
  apply (proj1 volumetric_masses_nonneg 30 0.5 0.4); split; vm_compute; discriminate.
Defined.

(** C8. The cement content is the constant 400 and the water mass is the
    cement content times the water-cement ratio, whatever the inputs: in
    rational arithmetic; in any arithmetic for every run that returns; and
    in Python for every float ratio and fraction, where the product is the
    float product [400.0 * w_c_ratio].  For the ratio 0.5 the water mass is
    the float 200.0. *)
Theorem water_is_cement_times_ratio :
  (forall fc w_c_ratio fine_ratio : Q,
     exists q,
       streamlit_app fc w_c_ratio fine_ratio = Ok q
       /\ cement_content q = 400
       /\ water_content q = cement_content q * w_c_ratio)
  /\ (forall (T : Type) (number : Number T) (fc w_c_ratio fine_ratio : T)
        (q : quantities T),
        streamlit_app fc w_c_ratio fine_ratio = Ok q ->
        cement_content q = int 400
        /\ mul (cement_content q) w_c_ratio = Ok (water_content q))
  /\ (forall (fc : pynum) (w_c_ratio fine_ratio : float),
        exists q,
          streamlit_app fc (PyFloat w_c_ratio) (PyFloat fine_ratio) = Ok q
          /\ cement_content q = PyInt 400
          /\ mul (cement_content q) (PyFloat w_c_ratio) = Ok (water_content q)
          /\ water_content q = PyFloat (400 * w_c_ratio)%float)
  /\ (forall (fc : pynum) (fine_ratio : float),
        exists q,
          streamlit_app fc (PyFloat 0.5) (PyFloat fine_ratio) = Ok q
          /\ water_content q = PyFloat 200).
Proof.
  split; [ | split; [ | split ] ].
  - intros fc w f. exists (streamlit_app_value w f).
    split; [ apply streamlit_app_ok | split; reflexivity ].
  - intros T number fc w f q H.
    apply streamlit_app_inv in H as (Hc & Hw & _). split; assumption.
  - intros fc w f. eexists.
    split; [ vm_compute; reflexivity | repeat split; vm_compute; reflexivity ].
  - intros fc f. eexists.
    split; [ vm_compute; reflexivity | reflexivity ].
Qed.

Lemma water_is_cement_times_ratio_witness :
  exists q,
    streamlit_app (PyInt 30) (PyFloat 0.5) (PyFloat 0.4) = Ok q
    /\ cement_content q = PyInt 400
    /\ mul (cement_content q) (PyFloat 0.5) = Ok (water_content q).
Proof.
  eexists. split; [ vm_compute; reflexivity | ].
  apply (proj1 (proj2 water_is_cement_times_ratio) pynum Number_py
           (PyInt 30) (PyFloat 0.5) (PyFloat 0.4)).
  vm_compute. reflexivity.
Defined.

(** ** The empirical calculator ([design_mix]) *)

Lemma select_boxes_designed :
  on_select_boxes (fun s l => holds nonneg_base (design_mix (PyInt s) (PyInt l))) = true.
Proof. by_evaluation. Qed.

Lemma Ok_inj {A : Type} (a b : A) : Ok a = Ok b -> a = b.
Proof. intros [= ->]. reflexivity. Qed.

(** On Python ints the cement and the coarse aggregate are computed in
    ints, and the division by a zero cement lets nothing through. *)
Lemma design_mix_on_ints_inv (strength slump : Z) (m : base_mix pynum) :
  design_mix (PyInt strength) (PyInt slump) = Ok m ->
  base_Cement m = PyInt (350 + (strength - 20) * 5)
  /\ base_Coarse_Aggregate m = PyInt (1100 - (strength - 20) * 10)
  /\ strength <> (-50)%Z.
Proof.
  intros H.
  pose proof (design_mix_inv_any _ _ _ H) as (Hc & _ & _ & Hco & Hr).
  change (Ok (PyInt (350 + (strength - 20) * 5)) = Ok (base_Cement m)) in Hc.
  change (Ok (PyInt (1100 - (strength - 20) * 10)) = Ok (base_Coarse_Aggregate m)) in Hco.
  apply Ok_inj in Hc, Hco.
  split; [ congruence | split; [ congruence | ] ].
  intros ->. rewrite <- Hc in Hr.
  destruct (base_Water m) as [z | f]; vm_compute in Hr; discriminate.
Qed.

(** C3, as the code has it.  Whenever [design_mix] returns, in any
    arithmetic, Python's included, the dict holds the values of the five
    formulas: cement = 350 + (strength - 20) * 5, water =
    180 + (slump / 150) * 20, fine aggregate = 700 - (slump / 150) * 50,
    coarse aggregate = 1100 - (strength - 20) * 10 and ratio =
    water / cement.  It does not return for every input.  In exact
    rational arithmetic it returns exactly when the cement mass is not
    zero, that is for every strength but -50, and raises
    [ZeroDivisionError] when it is zero.  In Python it returns on every
    pair of the select boxes; on ints it never returns at strength -50,
    where it raises [ZeroDivisionError] for every slump of the select box;
    and an int too large for a float makes it raise [OverflowError], at
    strength [10 ^ 400] in the division by the cement, at slump
    [10 ^ 400] in [slump / 150] even when the cement is zero.  At strength
    30 and slump 75 the values are 400, 190, 675, 1000 and 0.475, in
    rational arithmetic and in Python (cement and coarse aggregate as
    ints). *)
Theorem design_mix_formulas :
  (forall strength slump : Q,
     ~ 350 + (strength - 20) * 5 == 0 ->
     exists m,
       design_mix strength slump = Ok m
       /\ base_Cement m = 350 + (strength - 20) * 5
       /\ base_Water m = 180 + slump / 150 * 20
       /\ base_Fine_Aggregate m = 700 - slump / 150 * 50
       /\ base_Coarse_Aggregate m = 1100 - (strength - 20) * 10
       /\ base_w_c_ratio m = base_Water m / base_Cement m)
  /\ (forall strength slump : Q,
        350 + (strength - 20) * 5 == 0 ->
        design_mix strength slump = Raise ZeroDivisionError)
  /\ (forall (T : Type) (number : Number T) (strength slump : T) (m : base_mix T),
        design_mix strength slump = Ok m ->
        (val (int 350) + (val strength - val (int 20)) * val (int 5))%py
        = Ok (base_Cement m)
        /\ (val (int 180) + (val slump / val (int 150)) * val (int 20))%py
           = Ok (base_Water m)
        /\ (val (int 700) - (val slump / val (int 150)) * val (int 50))%py
           = Ok (base_Fine_Aggregate m)
        /\ (val (int 1100) - (val strength - val (int 20)) * val (int 10))%py
           = Ok (base_Coarse_Aggregate m)
        /\ truediv (base_Water m) (base_Cement m) = Ok (base_w_c_ratio m))
  /\ (forall strength slump : Z,
        In strength strength_options -> In slump slump_options ->
        exists m, design_mix (PyInt strength) (PyInt slump) = Ok m)
  /\ (forall (strength slump : Z) (m : base_mix pynum),
        design_mix (PyInt strength) (PyInt slump) = Ok m ->
        strength <> (-50)%Z)
  /\ (forall slump : Z,
        In slump slump_options ->
        design_mix (PyInt (-50)) (PyInt slump) = Raise ZeroDivisionError)
  /\ design_mix (PyInt (10 ^ 400)) (PyInt 75) = Raise OverflowError
  /\ design_mix (PyInt (-50)) (PyInt (10 ^ 400)) = Raise OverflowError
  /\ (exists m,
        design_mix (30 : Q) 75 = Ok m
        /\ base_Cement m == 400
        /\ base_Water m == 190
        /\ base_Fine_Aggregate m == 675
        /\ base_Coarse_Aggregate m == 1000
        /\ base_w_c_ratio m == 0.475)
  /\ design_mix (PyInt 30) (PyInt 75)
     = Ok {| base_Cement := PyInt 400;
             base_Water := PyFloat 190;
             base_Fine_Aggregate := PyFloat 675;
             base_Coarse_Aggregate := PyInt 1000;
             base_w_c_ratio := PyFloat 0.475 |}.
Proof.
  split; [ | split; [ | split; [ | split; [ | split; [ | split;
    [ | split; [ | split; [ | split ] ] ] ] ] ] ] ].
  - intros strength slump Hc. exists (design_mix_value strength slump).
    split; [ apply design_mix_ok, Hc | repeat split ].
  - apply design_mix_raise.
  - intros T number strength slump m. apply design_mix_inv_any.
  - intros strength slump Hs Hl.
    pose proof (on_select_boxes_spec _ select_boxes_designed strength slump Hs Hl) as H.
    apply holds_inv in H as [m [Hm _]]. exists m. exact Hm.
  - intros strength slump m Hm.
    apply design_mix_on_ints_inv in Hm as (_ & _ & Hs). exact Hs.
  - intros slump H. vm_compute in H.
    repeat (destruct H as [<- | H]; [ vm_compute; reflexivity | ]).
    contradiction.
  - vm_compute. reflexivity.
  - vm_compute. reflexivity.
  - exists (design_mix_value 30 75).
    split; [ apply design_mix_ok; vm_compute; discriminate | ].
    repeat split; vm_compute; reflexivity.
  - vm_compute. reflexivity.
Qed.

Lemma design_mix_formulas_witness :
  exists m,
    design_mix (30 : Q) 75 = Ok m
    /\ base_Cement m = 350 + (30 - 20) * 5
    /\ base_Water m = 180 + 75 / 150 * 20
    /\ base_Fine_Aggregate m = 700 - 75 / 150 * 50
    /\ base_Coarse_Aggregate m = 1100 - (30 - 20) * 10
    /\ base_w_c_ratio m = base_Water m / base_Cement m.
Proof.
  apply (proj1 design_mix_formulas 30 75). vm_compute. discriminate.
Defined.

(** C3 as stated fails: at strength -50 the cement mass is 0 and
    [design_mix] returns nothing, it raises [ZeroDivisionError], with
    rationals and with Python ints alike. *)
Lemma design_mix_raises_at_minus_50 :
  design_mix (-50 : Q) 75 = Raise ZeroDivisionError
  /\ design_mix (PyInt (-50)) (PyInt 75) = Raise ZeroDivisionError
  /\ ~ (forall strength slump : Q, exists m, design_mix strength slump = Ok m).
Proof.
  split; [ | split ].
  - vm_compute. reflexivity.
  - vm_compute. reflexivity.
  - intros H. destruct (H (-50) 75) as [m Hm]. vm_compute in Hm. discriminate.
Qed.

(** C7. For every strength in [[20, 60]] and every slump in [[25, 150]]
    [design_mix] returns and none of the four masses is negative: in
    rational arithmetic on the whole ranges, in Python on every pair the
    two select boxes offer, the corners (20, 25) and (60, 150) among
    them. *)
Theorem design_mix_nonneg :
  (forall strength slump : Q,
     20 <= strength <= 60 -> 25 <= slump <= 150 ->
     exists m,
       design_mix strength slump = Ok m
       /\ 0 <= base_Cement m
       /\ 0 <= base_Water m
       /\ 0 <= base_Fine_Aggregate m
       /\ 0 <= base_Coarse_Aggregate m)
  /\ (forall strength slump : Z,
        In strength strength_options -> In slump slump_options ->
        exists m,
          design_mix (PyInt strength) (PyInt slump) = Ok m
          /\ py_leb (PyInt 0) (base_Cement m) = true
          /\ py_leb (PyInt 0) (base_Water m) = true
          /\ py_leb (PyInt 0) (base_Fine_Aggregate m) = true
          /\ py_leb (PyInt 0) (base_Coarse_Aggregate m) = true)
  /\ In 20%Z strength_options /\ In 25%Z slump_options
  /\ In 60%Z strength_options /\ In 150%Z slump_options.
Proof.
  split; [ | split ].
  - intros strength slump [Hs1 Hs2] [Hl1 Hl2].
    exists (design_mix_value strength slump).
    split; [ apply design_mix_ok; lra | ]. cbn.
    assert (Hd : slump / 150 == slump * (1 # 150)) by (unfold Qdiv; reflexivity).
    rewrite Hd. repeat split; lra.
  - intros strength slump Hs Hl.
    pose proof (on_select_boxes_spec _ select_boxes_designed strength slump Hs Hl) as H.
    apply holds_inv in H as [m [Hm H]].
    unfold nonneg_base, py_nonneg in H.
    repeat (apply andb_prop in H as [H ?]).
    exists m. repeat split; assumption.
  - vm_compute. intuition.
Qed.

Lemma design_mix_nonneg_witness :
  exists m,
    design_mix (20 : Q) 25 = Ok m
    /\ 0 <= base_Cement m /\ 0 <= base_Water m
    /\ 0 <= base_Fine_Aggregate m /\ 0 <= base_Coarse_Aggregate m.
Proof.
  apply (proj1 design_mix_nonneg 20 25); split; vm_compute; discriminate.
Defined.

(** ** The optimizer ([optimize_mix]) *)

Lemma select_boxes_optimized (d1 d2 : float) :
  on_select_boxes (fun s l => holds (fun _ => true) (page_run s l d1 d2)) = true.
Proof. by_evaluation. Qed.

Lemma select_boxes_conserve_mass (d1 d2 : float) :
  on_select_boxes (fun s l => holds conserves_mass (page_run s l d1 d2)) = true.
Proof. by_evaluation. Qed.

Lemma select_boxes_ratio_close (d1 d2 : float) :
  on_select_boxes
    (fun s l => holds (ratio_scaled_within 0x1p-53) (page_run s l d1 d2)) = true.
Proof. by_evaluation. Qed.

(** C4. For every base mix [design_mix] produced, [optimize_mix] returns,
    and outside the two drawn fields its dict is: cement = 0.7 of the base
    cement, SCMs = 0.3 of it, coarse aggregate split 0.8 / 0.2, fine
    aggregate split 0.85 / 0.15, water = 1.02 times the base water, ratio =
    that water divided by (cement + SCMs), CO2 reduction 25 and cost
    reduction 15 whatever the inputs.  First in rational arithmetic; then,
    in any arithmetic, for every dict the function returns; last, in
    Python, the page returns on every pair of the select boxes, with the
    dict of the strength 30, slump 75 mix spelled out. *)
Theorem optimizer_fields :
  (forall (strength slump strength' slump' : Q) (base : base_mix Q) (g : RandomState Q),
     design_mix strength slump = Ok base ->
     exists o,
       optimize_mix base strength' slump' g = (Ok o, two_draws_later g)
       /\ opt_Cement o = base_Cement base * 0.7
       /\ opt_SCMs o = base_Cement base * 0.3
       /\ opt_Coarse_Aggregate o = base_Coarse_Aggregate base * 0.8
       /\ opt_Coarse_Recycled_Agg o = base_Coarse_Aggregate base * 0.2
       /\ opt_Fine_Aggregate o = base_Fine_Aggregate base * 0.85
       /\ opt_Fine_Recycled_Agg o = base_Fine_Aggregate base * 0.15
       /\ opt_Water o = base_Water base * 1.02
       /\ opt_w_c_ratio o = opt_Water o / (opt_Cement o + opt_SCMs o)
       /\ opt_CO2_Reduction o = 25
       /\ opt_Cost_Reduction o = 15)
  /\ (forall (T : Type) (number : Number T) (base : base_mix T) (strength slump : T)
        (g g' : RandomState T) (o : optimized_mix T),
        optimize_mix base strength slump g = (Ok o, g') ->
        mul (base_Cement base) (flt 0.7) = Ok (opt_Cement o)
        /\ mul (base_Cement base) (flt 0.3) = Ok (opt_SCMs o)
        /\ mul (base_Coarse_Aggregate base) (flt 0.8) = Ok (opt_Coarse_Aggregate o)
        /\ mul (base_Coarse_Aggregate base) (flt 0.2) = Ok (opt_Coarse_Recycled_Agg o)
        /\ mul (base_Fine_Aggregate base) (flt 0.85) = Ok (opt_Fine_Aggregate o)
        /\ mul (base_Fine_Aggregate base) (flt 0.15) = Ok (opt_Fine_Recycled_Agg o)
        /\ mul (base_Water base) (flt 1.02) = Ok (opt_Water o)
        /\ (val (opt_Water o) / (val (opt_Cement o) + val (opt_SCMs o)))%py
           = Ok (opt_w_c_ratio o)
        /\ opt_CO2_Reduction o = int 25
        /\ opt_Cost_Reduction o = int 15)
  /\ (forall (strength slump : Z) (d1 d2 : float),
        In strength strength_options -> In slump slump_options ->
        exists b o, page_run strength slump d1 d2 = Ok (b, o))
  /\ (forall d1 d2 : float,
        exists b o,
          page_run 30 75 d1 d2 = Ok (b, o)
          /\ non_random o
             = [PyFloat 280; PyFloat 120; PyFloat 193.80000000000001;
                PyFloat 573.75; PyFloat 101.25; PyFloat 800; PyFloat 200;
                PyFloat 0.48450000000000004; PyInt 25; PyInt 15]).
Proof.
  split; [ | split; [ | split ] ].
  - intros strength slump strength' slump' base g Hb.
    apply design_mix_inv in Hb as [_ Hc].
    exists (optimize_mix_value base strength' slump' g).
    split; [ apply optimize_mix_ok, Hc | repeat split ].
  - intros T number base strength slump g g' o H.
    apply optimize_mix_inv in H. intuition.
  - intros strength slump d1 d2 Hs Hl.
    pose proof (on_select_boxes_spec _ (select_boxes_optimized d1 d2) strength slump Hs Hl) as H.
    apply holds_inv in H as [[b o] [H _]]. exists b, o. exact H.
  - intros d1 d2. eexists. eexists.
    split; [ vm_compute; reflexivity | vm_compute; reflexivity ].
Qed.

Lemma optimizer_fields_witness :
  exists o,
    optimize_mix (design_mix_value 30 75) 30 75 (draws 1 (-3))
    = (Ok o, two_draws_later (draws 1 (-3)))
    /\ opt_Cement o = base_Cement (design_mix_value 30 75) * 0.7
    /\ opt_SCMs o = base_Cement (design_mix_value 30 75) * 0.3
    /\ opt_Coarse_Aggregate o = base_Coarse_Aggregate (design_mix_value 30 75) * 0.8
    /\ opt_Coarse_Recycled_Agg o = base_Coarse_Aggregate (design_mix_value 30 75) * 0.2
    /\ opt_Fine_Aggregate o = base_Fine_Aggregate (design_mix_value 30 75) * 0.85
    /\ opt_Fine_Recycled_Agg o = base_Fine_Aggregate (design_mix_value 30 75) * 0.15
    /\ opt_Water o = base_Water (design_mix_value 30 75) * 1.02
    /\ opt_w_c_ratio o = opt_Water o / (opt_Cement o + opt_SCMs o)
    /\ opt_CO2_Reduction o = 25
    /\ opt_Cost_Reduction o = 15.
Proof.
  apply (proj1 optimizer_fields 30 75 30 75). vm_compute. reflexivity.
Defined.

(** C5. Whenever the optimizer returns (the base cement is not zero) and
    whatever the strength and slump, an admissible pair of draws (the first
    in [[0, 2]], the second in [[-10, 10]]) gives an estimated strength
    equal to the strength minus the first draw, within
    [[strength - 2, strength]], and an estimated slump equal to the slump
    plus the second draw, within [[slump - 10, slump + 10]].  On the page,
    for strength 30 and slump 75, the estimates lie in [[28, 30]] and
    [[65, 85]].  In Python the two fields are the float difference and sum,
    and the ends of the two intervals are reached by the extreme draws. *)
Theorem estimates_follow_draws :
  (forall (base : base_mix Q) (strength slump : Q) (g : RandomState Q),
     ~ base_Cement base == 0 -> admissible g ->
     exists o,
       optimize_mix base strength slump g = (Ok o, two_draws_later g)
       /\ opt_New_Strength o = strength - tape g (pos g)
       /\ strength - 2 <= opt_New_Strength o <= strength
       /\ opt_New_Slump o = slump + tape g (S (pos g))
       /\ slump - 10 <= opt_New_Slump o <= slump + 10)
  /\ (forall g : RandomState Q,
        admissible g ->
        exists b o,
          designed_and_optimized 30 75 g = (Ok (b, o), two_draws_later g)
          /\ 28 <= opt_New_Strength o <= 30
          /\ 65 <= opt_New_Slump o <= 85)
  /\ (forall d1 d2 : float,
        exists b o,
          page_run 30 75 d1 d2 = Ok (b, o)
          /\ opt_New_Strength o = PyFloat (30 - d1)
          /\ opt_New_Slump o = PyFloat (75 + d2))
  /\ (30 - 0 = 30 /\ 30 - 2 = 28 /\ 75 + -10 = 65 /\ 75 + 10 = 85)%float.
Proof.
  split; [ | split; [ | split ] ].
  - intros base strength slump g Hc [[Ha1 Ha2] [Hb1 Hb2]].
    exists (optimize_mix_value base strength slump g).
    split; [ apply optimize_mix_ok, Hc | ]. cbn.
    repeat split; lra.
  - intros g [[Ha1 Ha2] [Hb1 Hb2]].
    exists (design_mix_value 30 75).
    exists (optimize_mix_value (design_mix_value 30 75) 30 75 g).
    split.
    + unfold designed_and_optimized, rbind, pure.
      rewrite design_mix_ok by (vm_compute; discriminate).
      rewrite optimize_mix_ok by (vm_compute; discriminate).
      reflexivity.
    + cbn. repeat split; lra.
  - intros d1 d2. eexists. eexists.
    split; [ vm_compute; reflexivity | split; reflexivity ].
  - repeat split; vm_compute; reflexivity.
Qed.

Lemma estimates_follow_draws_witness :
  exists o,
    optimize_mix (design_mix_value 30 75) 30 75 (draws 1 (-3))
    = (Ok o, two_draws_later (draws 1 (-3)))
    /\ opt_New_Strength o = 30 - tape (draws 1 (-3)) (pos (draws 1 (-3)))
    /\ 30 - 2 <= opt_New_Strength o <= 30
    /\ opt_New_Slump o = 75 + tape (draws 1 (-3)) (S (pos (draws 1 (-3))))
    /\ 75 - 10 <= opt_New_Slump o <= 75 + 10.
Proof.
  apply (proj1 estimates_follow_draws (design_mix_value 30 75) 30 75 (draws 1 (-3))).
  - vm_compute. discriminate.
  - repeat split; vm_compute; discriminate.
Defined.

(** C9, as the code has it.  In rational arithmetic, for every base mix
    [design_mix] produced, the optimizer returns and its substitutions
    conserve mass exactly: cement + SCMs is the base cement, natural +
    recycled coarse aggregate is the base coarse aggregate, natural +
    recycled fine aggregate is the base fine aggregate.  In Python's
    floats each sum [==] the base mass on every pair of the select boxes,
    whatever the draws; it does not for every base mix. *)
Theorem substitution_conserves_mass :
  (forall (strength slump strength' slump' : Q) (base : base_mix Q) (g : RandomState Q),
     design_mix strength slump = Ok base ->
     exists o,
       optimize_mix base strength' slump' g = (Ok o, two_draws_later g)
       /\ opt_Cement o + opt_SCMs o == base_Cement base
       /\ opt_Coarse_Aggregate o + opt_Coarse_Recycled_Agg o == base_Coarse_Aggregate base
       /\ opt_Fine_Aggregate o + opt_Fine_Recycled_Agg o == base_Fine_Aggregate base)
  /\ (forall (strength slump : Z) (d1 d2 : float),
        In strength strength_options -> In slump slump_options ->
        exists b o,
          page_run strength slump d1 d2 = Ok (b, o)
          /\ holds (py_eqb (base_Cement b)) (binder_total o) = true
          /\ holds (py_eqb (base_Coarse_Aggregate b)) (coarse_total o) = true
          /\ holds (py_eqb (base_Fine_Aggregate b)) (fine_total o) = true).
Proof.
  split.
  - intros strength slump strength' slump' base g Hb.
    apply design_mix_inv in Hb as [_ Hc].
    exists (optimize_mix_value base strength' slump' g).
    split; [ apply optimize_mix_ok, Hc | ]. cbn.
    repeat split; ring.
  - intros strength slump d1 d2 Hs Hl.
    pose proof (on_select_boxes_spec _ (select_boxes_conserve_mass d1 d2)
                  strength slump Hs Hl) as H.
    apply holds_inv in H as [[b o] [Hr H]].
    unfold conserves_mass in H.
    repeat (apply andb_prop in H as [H ?]).
    exists b, o. repeat split; assumption.
Qed.

Lemma substitution_conserves_mass_witness :
  exists o,
    optimize_mix (design_mix_value 30 75) 30 75 (draws 1 (-3))
    = (Ok o, two_draws_later (draws 1 (-3)))
    /\ opt_Cement o + opt_SCMs o == base_Cement (design_mix_value 30 75)
    /\ opt_Coarse_Aggregate o + opt_Coarse_Recycled_Agg o
       == base_Coarse_Aggregate (design_mix_value 30 75)
    /\ opt_Fine_Aggregate o + opt_Fine_Recycled_Agg o
       == base_Fine_Aggregate (design_mix_value 30 75).
Proof.
  apply (proj1 substitution_conserves_mass 30 75 30 75). vm_compute. reflexivity.
Defined.

(** C9 as stated fails on the floats the code computes: for the base mix
    of strength 20 and slump 29 the fine aggregate is 690.33333333333337,
    while its natural part 586.7833333333333 and its recycled part 103.55
    add up to 690.33333333333326. *)
Lemma fine_split_not_conserved_in_floats :
  exists b o,
    design_mix (PyInt 20) (PyInt 29) = Ok b
    /\ page_run 20 29 0 0 = Ok (b, o)
    /\ base_Fine_Aggregate b = PyFloat 690.33333333333337
    /\ opt_Fine_Aggregate o = PyFloat 586.7833333333333
    /\ opt_Fine_Recycled_Agg o = PyFloat 103.55
    /\ fine_total o = Ok (PyFloat 690.33333333333326)
    /\ holds (py_eqb (base_Fine_Aggregate b)) (fine_total o) = false.
Proof.
  eexists. eexists.
  split; [ vm_compute; reflexivity | ].
  split; [ vm_compute; reflexivity | repeat split; vm_compute; reflexivity ].
Qed.

(** C10, as the code has it.  In rational arithmetic, for every base mix
    [design_mix] produced with strictly positive cement, the optimized
    water-cement ratio is exactly 1.02 times the base ratio.  In Python's
    floats the two agree up to rounding only: on every pair of the select
    boxes they are within [2^-53] of each other. *)
Theorem ratio_scaling_law :
  (forall (strength slump strength' slump' : Q) (base : base_mix Q) (g : RandomState Q),
     design_mix strength slump = Ok base ->
     0 < base_Cement base ->
     exists o,
       optimize_mix base strength' slump' g = (Ok o, two_draws_later g)
       /\ opt_w_c_ratio o == 1.02 * base_w_c_ratio base)
  /\ (forall (strength slump : Z) (d1 d2 : float),
        In strength strength_options -> In slump slump_options ->
        exists b o r,
          page_run strength slump d1 d2 = Ok (b, o)
          /\ scaled_w_c_ratio b = Ok r
          /\ py_close 0x1p-53 (opt_w_c_ratio o) r = true).
Proof.
  split.
  - intros strength slump strength' slump' base g Hb Hpos.
    apply design_mix_inv in Hb as [-> Hc].
    exists (optimize_mix_value (design_mix_value strength slump) strength' slump' g).
    split; [ apply optimize_mix_ok, Hc | ].
    cbn in *. field. exact Hc.
  - intros strength slump d1 d2 Hs Hl.
    pose proof (on_select_boxes_spec _ (select_boxes_ratio_close d1 d2)
                  strength slump Hs Hl) as H.
    apply holds_inv in H as [[b o] [Hr H]].
    unfold ratio_scaled_within in H.
    apply holds_inv in H as [r [Hs' H]].
    exists b, o, r. repeat split; assumption.
Qed.

Lemma ratio_scaling_law_witness :
  exists o,
    optimize_mix (design_mix_value 30 75) 30 75 (draws 1 (-3))
    = (Ok o, two_draws_later (draws 1 (-3)))
    /\ opt_w_c_ratio o == 1.02 * base_w_c_ratio (design_mix_value 30 75).
Proof.
  apply (proj1 ratio_scaling_law 30 75 30 75).
  - vm_compute. reflexivity.
  - vm_compute. reflexivity.
Defined.

(** C10 as stated fails on the floats the page computes: for strength 20
    and slump 25 the optimized ratio is 0.53428571428571425 while 1.02
    times the base ratio is 0.53428571428571436. *)
Lemma ratio_not_scaled_in_floats :
  exists b o,
    page_run 20 25 0 0 = Ok (b, o)
    /\ py_leb (PyInt 1) (base_Cement b) = true
    /\ opt_w_c_ratio o = PyFloat 0.53428571428571425
    /\ scaled_w_c_ratio b = Ok (PyFloat 0.53428571428571436)
    /\ holds (py_eqb (opt_w_c_ratio o)) (scaled_w_c_ratio b) = false.
Proof.
  eexists. eexists.
  split; [ vm_compute; reflexivity | repeat split; vm_compute; reflexivity ].
Qed.

(** ** Determinism *)

(** C6. The two calculators are deterministic: the script of
    [streamlit_app.py] and [design_mix] are functions of their inputs alone
    (neither reads the generator), in any arithmetic, so two calls on
    identical inputs give identical results, exceptions included.  Two
    returning calls of [optimize_mix] on the same base mix agree on every
    field that is not drawn, whatever the two generators; and the two drawn
    fields do vary with the generator. *)
Theorem calculators_deterministic :
  (forall (T : Type) (number : Number T) (fc w_c_ratio fine_ratio fc' w_c_ratio' fine_ratio' : T),
     fc = fc' -> w_c_ratio = w_c_ratio' -> fine_ratio = fine_ratio' ->
     streamlit_app fc w_c_ratio fine_ratio = streamlit_app fc' w_c_ratio' fine_ratio')
  /\ (forall (T : Type) (number : Number T) (strength slump strength' slump' : T),
        strength = strength' -> slump = slump' ->
        design_mix strength slump = design_mix strength' slump')
  /\ (forall (T : Type) (number : Number T) (base : base_mix T) (strength slump : T)
        (g1 g2 g1' g2' : RandomState T) (o1 o2 : optimized_mix T),
        optimize_mix base strength slump g1 = (Ok o1, g1') ->
        optimize_mix base strength slump g2 = (Ok o2, g2') ->
        non_random o1 = non_random o2)
  /\ (forall (strength slump : Q) (g1 g2 : RandomState Q),
        20 <= strength <= 60 ->
        exists b o1 o2,
          designed_and_optimized strength slump g1 = (Ok (b, o1), two_draws_later g1)
          /\ designed_and_optimized strength slump g2 = (Ok (b, o2), two_draws_later g2)
          /\ non_random o1 = non_random o2)
  /\ (exists b o1 o2,
        designed_and_optimized (30 : Q) 75 (draws 0 0) = (Ok (b, o1), two_draws_later (draws 0 0))
        /\ designed_and_optimized (30 : Q) 75 (draws 2 10) = (Ok (b, o2), two_draws_later (draws 2 10))
        /\ ~ opt_New_Strength o1 == opt_New_Strength o2
        /\ ~ opt_New_Slump o1 == opt_New_Slump o2).
Proof.
  split; [ | split; [ | split; [ | split ] ] ].
  - intros T number fc w f fc' w' f' -> -> ->. reflexivity.
  - intros T number s l s' l' -> ->. reflexivity.
  - intros T number base strength slump g1 g2 g1' g2' o1 o2.
    apply optimize_mix_non_random.
  - intros strength slump g1 g2 [Hs1 Hs2].
    assert (Hc : ~ 350 + (strength - 20) * 5 == 0) by lra.
    exists (design_mix_value strength slump).
    exists (optimize_mix_value (design_mix_value strength slump) strength slump g1).
    exists (optimize_mix_value (design_mix_value strength slump) strength slump g2).
    unfold designed_and_optimized, rbind, pure.
    rewrite (design_mix_ok _ _ Hc).
    rewrite !optimize_mix_ok by exact Hc.
    repeat split.
  - exists (design_mix_value 30 75).
    exists (optimize_mix_value (design_mix_value 30 75) 30 75 (draws 0 0)).
    exists (optimize_mix_value (design_mix_value 30 75) 30 75 (draws 2 10)).
    repeat split; vm_compute; discriminate.
Qed.

Lemma calculators_deterministic_witness :
  design_mix (PyInt 30) (PyInt 75) = design_mix (PyInt 30) (PyInt 75)
  /\ exists b o1 o2,
       designed_and_optimized (30 : Q) 75 (draws 0 0)
       = (Ok (b, o1), two_draws_later (draws 0 0))
       /\ designed_and_optimized (30 : Q) 75 (draws 2 10)
          = (Ok (b, o2), two_draws_later (draws 2 10))
       /\ non_random o1 = non_random o2.
Proof.
  split.
  - apply (proj1 (proj2 calculators_deterministic) pynum Number_py); reflexivity.
  - apply (proj1 (proj2 (proj2 (proj2 calculators_deterministic))) 30 75);
      split; vm_compute; discriminate.
Defined.

(** * Further properties of the code *)

(** ** [streamlit_app.py]: what the computation does off the widget ranges *)

Lemma aggregate_volume_linear (w_c_ratio : Q) :
  1 - (400 / (3.15 * 1000) + 400 * w_c_ratio / (1.00 * 1000))
  == (55 # 63) - (2 # 5) * w_c_ratio.
Proof. field. Qed.

Lemma steps_aggregate_signs :
  forallb (fun w => forallb (aggregate_signs w) fine_ratio_steps) (hundredths 200 240) = true.
Proof. by_evaluation. Qed.

(** X1. The computation checks nothing: the two widgets alone bound its
    inputs.  In Python it returns for every float ratio and fraction, and
    at ratio 3.0 the aggregate masses it returns are negative.  In exact
    rational arithmetic, for a fine fraction strictly between 0 and 1,
    the two aggregate masses are non-negative exactly when the
    water-cement ratio is at most 275/126 (about 2.18).  In Python's
    floats, on every two-decimal ratio from 2.00 to 2.40 and every
    two-decimal fine fraction from 0.30 to 0.60, they are non-negative
    exactly when the ratio is at most 2.18. *)
Theorem script_sign_threshold :
  (forall fc w_c_ratio fine_ratio : Q,
     0 < fine_ratio -> fine_ratio < 1 ->
     exists q,
       streamlit_app fc w_c_ratio fine_ratio = Ok q
       /\ (0 <= fine_agg_mass q <-> w_c_ratio <= 275 # 126)
       /\ (0 <= coarse_agg_mass q <-> w_c_ratio <= 275 # 126))
  /\ (forall (fc : pynum) (w_c_ratio fine_ratio : float),
        exists q, streamlit_app fc (PyFloat w_c_ratio) (PyFloat fine_ratio) = Ok q)
  /\ (exists q,
        streamlit_app (PyInt 30) (PyFloat 3) (PyFloat 0.4) = Ok q
        /\ py_ltb (fine_agg_mass q) (PyInt 0) = true
        /\ py_ltb (coarse_agg_mass q) (PyInt 0) = true)
  /\ (forall w_c_ratio fine_ratio : Q,
        In w_c_ratio (hundredths 200 240) -> In fine_ratio fine_ratio_steps ->
        exists q,
          script_run w_c_ratio fine_ratio = Ok q
          /\ (py_leb (PyInt 0) (fine_agg_mass q) = true <-> w_c_ratio <= 2.18)
          /\ (py_leb (PyInt 0) (coarse_agg_mass q) = true <-> w_c_ratio <= 2.18)).
Proof.
  split; [ | split; [ | split ] ].
  - intros fc w f Hf0 Hf1. exists (streamlit_app_value w f).
    split; [ apply streamlit_app_ok | ]. cbn.
    pose proof (aggregate_volume_linear w) as Hva. set (va := 1 - _) in *.
    split; split; intros H.
    + assert (~ va < 0) by (intros Hn; nra). lra.
    + assert (0 <= va) by lra. nra.
    + assert (~ va < 0) by (intros Hn; nra). lra.
    + assert (0 <= va) by lra. nra.
  - intros fc w f. eexists. vm_compute. reflexivity.
  - eexists. split; [ vm_compute; reflexivity | split; vm_compute; reflexivity ].
  - intros w f Hw Hf.
    pose proof steps_aggregate_signs as H.
    rewrite forallb_forall in H. specialize (H w Hw).
    rewrite forallb_forall in H. specialize (H f Hf).
    unfold aggregate_signs in H.
    apply holds_inv in H as [q [Hq H]].
    apply andb_prop in H as [Hfine Hcoarse].
    apply eqb_prop in Hfine, Hcoarse. unfold py_nonneg in Hfine, Hcoarse.
    exists q. split; [ exact Hq | ].
    rewrite Hfine, Hcoarse. split; apply Qle_bool_iff.
Qed.

Lemma script_sign_threshold_witness :
  exists q,
    streamlit_app (30 : Q) 0.5 0.4 = Ok q
    /\ (0 <= fine_agg_mass q <-> 0.5 <= 275 # 126)
    /\ (0 <= coarse_agg_mass q <-> 0.5 <= 275 # 126).
Proof.
  apply (proj1 script_sign_threshold 30 0.5 0.4); vm_compute; reflexivity.
Defined.

Lemma widget_steps_wetter :
  forallb (fun f => forallb (fun p : Q * Q => script_wetter (fst p) (snd p) f)
                            (adjacent w_c_ratio_steps))
          fine_ratio_steps = true.
Proof. by_evaluation. Qed.

Lemma widget_steps_finer :
  forallb (fun w => forallb (fun p : Q * Q => script_finer w (fst p) (snd p))
                            (adjacent fine_ratio_steps))
          w_c_ratio_steps = true.
Proof. by_evaluation. Qed.

(** X2. More water leaves less room for aggregate.  In rational
    arithmetic, for a fine fraction in [[0, 1]] and any two ratios, the
    higher ratio gives at least as much water and at most as much of each
    aggregate; and for a ratio that leaves room for aggregate (at most
    275/126) and any two fine fractions, the higher fraction gives at
    least as much fine and at most as much coarse aggregate.  In
    Python's floats, from each two-decimal value of a widget to the next
    one, the other widget on any of its values: the higher ratio gives
    strictly more water and strictly less of each aggregate, the higher
    fraction strictly more fine and strictly less coarse aggregate. *)
Theorem script_monotone :
  (forall fc w1 w2 fine_ratio : Q,
     w1 <= w2 -> 0 <= fine_ratio <= 1 ->
     exists q q_wetter,
       streamlit_app fc w1 fine_ratio = Ok q
       /\ streamlit_app fc w2 fine_ratio = Ok q_wetter
       /\ water_content q <= water_content q_wetter
       /\ fine_agg_mass q_wetter <= fine_agg_mass q
       /\ coarse_agg_mass q_wetter <= coarse_agg_mass q)
  /\ (forall fc w_c_ratio f1 f2 : Q,
        w_c_ratio <= 275 # 126 -> f1 <= f2 ->
        exists q q_finer,
          streamlit_app fc w_c_ratio f1 = Ok q
          /\ streamlit_app fc w_c_ratio f2 = Ok q_finer
          /\ fine_agg_mass q <= fine_agg_mass q_finer
          /\ coarse_agg_mass q_finer <= coarse_agg_mass q)
  /\ (forall w1 w2 fine_ratio : Q,
        In (w1, w2) (adjacent w_c_ratio_steps) -> In fine_ratio fine_ratio_steps ->
        exists q q_wetter,
          script_run w1 fine_ratio = Ok q
          /\ script_run w2 fine_ratio = Ok q_wetter
          /\ py_ltb (water_content q) (water_content q_wetter) = true
          /\ py_ltb (fine_agg_mass q_wetter) (fine_agg_mass q) = true
          /\ py_ltb (coarse_agg_mass q_wetter) (coarse_agg_mass q) = true)
  /\ (forall w_c_ratio f1 f2 : Q,
        In w_c_ratio w_c_ratio_steps -> In (f1, f2) (adjacent fine_ratio_steps) ->
        exists q q_finer,
          script_run w_c_ratio f1 = Ok q
          /\ script_run w_c_ratio f2 = Ok q_finer
          /\ py_ltb (fine_agg_mass q) (fine_agg_mass q_finer) = true
          /\ py_ltb (coarse_agg_mass q_finer) (coarse_agg_mass q) = true).
Proof.
  split; [ | split; [ | split ] ].
  - intros fc w1 w2 f Hw [Hf0 Hf1].
    exists (streamlit_app_value w1 f), (streamlit_app_value w2 f).
    repeat (split; [ apply streamlit_app_ok | ]). cbn.
    pose proof (aggregate_volume_linear w1) as Hva1.
    pose proof (aggregate_volume_linear w2) as Hva2.
    set (va1 := 1 - _) in *. set (va2 := 1 - _) in *.
    repeat split; nra.
  - intros fc w f1 f2 Hw Hf.
    exists (streamlit_app_value w f1), (streamlit_app_value w f2).
    repeat (split; [ apply streamlit_app_ok | ]). cbn.
    pose proof (aggregate_volume_linear w) as Hva.
    set (va := 1 - _) in *.
    split; nra.
  - intros w1 w2 f Hw Hf.
    pose proof widget_steps_wetter as H.
    rewrite forallb_forall in H. specialize (H f Hf).
    rewrite forallb_forall in H. specialize (H (w1, w2) Hw).
    cbn [fst snd] in H. unfold script_wetter in H.
    destruct (script_run w1 f) as [q | ]; [ | discriminate ].
    destruct (script_run w2 f) as [q_wetter | ]; [ | discriminate ].
    apply andb_prop in H as [H Hcoarse]. apply andb_prop in H as [Hwater Hfine].
    exists q, q_wetter. repeat split; assumption.
  - intros w f1 f2 Hw Hf.
    pose proof widget_steps_finer as H.
    rewrite forallb_forall in H. specialize (H w Hw).
    rewrite forallb_forall in H. specialize (H (f1, f2) Hf).
    cbn [fst snd] in H. unfold script_finer in H.
    destruct (script_run w f1) as [q | ]; [ | discriminate ].
    destruct (script_run w f2) as [q_finer | ]; [ | discriminate ].
    apply andb_prop in H as [Hfine Hcoarse].
    exists q, q_finer. repeat split; assumption.
Qed.

Lemma script_monotone_witness :
  (exists q q_wetter,
     streamlit_app (30 : Q) 0.4 0.4 = Ok q
     /\ streamlit_app (30 : Q) 0.6 0.4 = Ok q_wetter
     /\ water_content q <= water_content q_wetter
     /\ fine_agg_mass q_wetter <= fine_agg_mass q
     /\ coarse_agg_mass q_wetter <= coarse_agg_mass q)
  /\ (exists q q_finer,
        streamlit_app (30 : Q) 0.4 0.4 = Ok q
        /\ streamlit_app (30 : Q) 0.4 0.5 = Ok q_finer
        /\ fine_agg_mass q <= fine_agg_mass q_finer
        /\ coarse_agg_mass q_finer <= coarse_agg_mass q).
Proof.
  split.
  - apply (proj1 script_monotone 30 0.4 0.6 0.4);
      [ | split ]; vm_compute; discriminate.
  - apply (proj1 (proj2 script_monotone) 30 0.4 0.4 0.5); vm_compute; discriminate.
Defined.

Lemma widget_steps_density :
  on_widget_steps
    (fun w f =>
       holds (fun q => holds (py_between (PyInt 2263) (PyInt 2542)) (quantities_total q))
             (script_run w f)) = true.
Proof. by_evaluation. Qed.

(** X3. On the widget ranges the four masses add up to a plausible
    density: between 2263 and 2542 kg per cubic metre, in rational
    arithmetic for every ratio in [[0.3, 0.7]] and fraction in
    [[0.3, 0.6]], and in Python's floats on every two-decimal pair. *)
Theorem script_density_bounds :
  (forall fc w_c_ratio fine_ratio : Q,
     0.3 <= w_c_ratio <= 0.7 -> 0.3 <= fine_ratio <= 0.6 ->
     exists q total,
       streamlit_app fc w_c_ratio fine_ratio = Ok q
       /\ quantities_total q = Ok total
       /\ total = cement_content q + water_content q
                  + fine_agg_mass q + coarse_agg_mass q
       /\ 2263 <= total <= 2542)
  /\ (forall w_c_ratio fine_ratio : Q,
        In w_c_ratio w_c_ratio_steps -> In fine_ratio fine_ratio_steps ->
        exists q total,
          script_run w_c_ratio fine_ratio = Ok q
          /\ quantities_total q = Ok total
          /\ py_leb (PyInt 2263) total = true
          /\ py_leb total (PyInt 2542) = true).
Proof.
  split.
  - intros fc w f [Hw1 Hw2] [Hf1 Hf2].
    exists (streamlit_app_value w f). eexists.
    split; [ apply streamlit_app_ok | ].
    split; [ reflexivity | ]. split; [ reflexivity | ]. cbn.
    pose proof (aggregate_volume_linear w) as Hva. set (va := 1 - _) in *.
    split; nra.
  - intros w f Hw Hf.
    pose proof (on_widget_steps_spec _ widget_steps_density w f Hw Hf) as H.
    apply holds_inv in H as [q [Hq H]].
    apply holds_inv in H as [total [Ht H]].
    unfold py_between in H. apply andb_prop in H as [Hlo Hhi].
    exists q, total. repeat split; assumption.
Qed.

Lemma script_density_bounds_witness :
  exists q total,
    streamlit_app (30 : Q) 0.5 0.4 = Ok q
    /\ quantities_total q = Ok total
    /\ total = cement_content q + water_content q
               + fine_agg_mass q + coarse_agg_mass q
    /\ 2263 <= total <= 2542.
Proof.
  apply (proj1 script_density_bounds 30 0.5 0.4); split; vm_compute; discriminate.
Defined.

(** ** [design_mix]: how the mix moves with its inputs *)

Lemma slump_term (slump : Q) : slump / 150 == slump * (1 # 150).
Proof. reflexivity. Qed.

Lemma ratio_lt (a b c d : Q) : 0 < b -> 0 < d -> a * d < c * b -> a / b < c / d.
Proof.
  intros Hb Hd H.
  apply Qlt_shift_div_r; [ assumption | ].
  setoid_replace (c / d * b) with (c * b / d) by (field; lra).
  apply Qlt_shift_div_l; assumption.
Qed.





Lemma select_boxes_ratio_falls_with_strength :
  forallb (fun slump =>
             forallb (fun p : Z * Z =>
                        result_ltb (ratio_of (snd p) slump) (ratio_of (fst p) slump))
                     (adjacent strength_options))
          slump_options = true.
Proof. by_evaluation. Qed.

Lemma select_boxes_ratio_rises_with_slump :
  forallb (fun strength =>
             forallb (fun p : Z * Z =>
                        result_ltb (ratio_of strength (fst p)) (ratio_of strength (snd p)))
                     (adjacent slump_options))
          strength_options = true.
Proof. by_evaluation. Qed.

(** X5. The water-cement ratio falls strictly as the strength rises and
    rises strictly with the slump, as long as cement and water are
    positive (strength above -50, slump above -1350).  In Python's floats
    the same holds from each option of a select box to the next one. *)
Theorem design_mix_ratio_monotone :
  (forall s1 s2 l1 l2 : Q,
     -50 < s1 -> s1 < s2 -> -1350 < l1 -> l1 < l2 ->
     exists m m_stronger m_wetter,
       design_mix s1 l1 = Ok m
       /\ design_mix s2 l1 = Ok m_stronger
       /\ design_mix s1 l2 = Ok m_wetter
       /\ base_w_c_ratio m_stronger < base_w_c_ratio m
       /\ base_w_c_ratio m < base_w_c_ratio m_wetter)
  /\ (forall s1 s2 slump : Z,
        In (s1, s2) (adjacent strength_options) -> In slump slump_options ->
        result_ltb (ratio_of s2 slump) (ratio_of s1 slump) = true)
  /\ (forall strength l1 l2 : Z,
        In strength strength_options -> In (l1, l2) (adjacent slump_options) ->
        result_ltb (ratio_of strength l1) (ratio_of strength l2) = true).
Proof.
  split; [ | split ].
  - intros s1 s2 l1 l2 Hs1 Hs Hl1 Hl.
    exists (design_mix_value s1 l1), (design_mix_value s2 l1), (design_mix_value s1 l2).
    rewrite !design_mix_ok by lra.
    repeat split; cbn; rewrite ?slump_term; apply ratio_lt; try lra; nra.
  - intros s1 s2 slump Hs Hl.
    pose proof select_boxes_ratio_falls_with_strength as H.
    rewrite forallb_forall in H. specialize (H slump Hl).
    rewrite forallb_forall in H. exact (H (s1, s2) Hs).
  - intros strength l1 l2 Hs Hl.
    pose proof select_boxes_ratio_rises_with_slump as H.
    rewrite forallb_forall in H. specialize (H strength Hs).
    rewrite forallb_forall in H. exact (H (l1, l2) Hl).
Qed.

Lemma design_mix_ratio_monotone_witness :
  exists m m_stronger m_wetter,
    design_mix (20 : Q) 25 = Ok m
    /\ design_mix (60 : Q) 25 = Ok m_stronger
    /\ design_mix (20 : Q) 150 = Ok m_wetter
    /\ base_w_c_ratio m_stronger < base_w_c_ratio m
    /\ base_w_c_ratio m < base_w_c_ratio m_wetter.
Proof.
  apply (proj1 design_mix_ratio_monotone 20 60 25 150); vm_compute; reflexivity.
Defined.

Lemma select_boxes_total :
  on_select_boxes
    (fun s l =>
       holds (fun b => holds (py_between (PyInt 2100) (PyInt 2325)) (base_total b))
             (design_mix (PyInt s) (PyInt l))) = true.
Proof. by_evaluation. Qed.

(** X6. The four masses of a designed mix add up to
    2430 - 5 * strength - slump / 5: every MPa of strength takes 5 kg off
    the cubic metre and every 5 mm of slump 1 kg.  On the selectable ranges
    the total stays between 2100 and 2325 kg, in rational arithmetic and,
    for every pair of the select boxes, in Python. *)
Theorem design_mix_total_mass :
  (forall strength slump : Q,
     ~ 350 + (strength - 20) * 5 == 0 ->
     exists m total,
       design_mix strength slump = Ok m
       /\ base_total m = Ok total
       /\ total == 2430 - 5 * strength - slump / 5)
  /\ (forall strength slump : Q,
        20 <= strength <= 60 -> 25 <= slump <= 150 ->
        exists m total,
          design_mix strength slump = Ok m
          /\ base_total m = Ok total
          /\ 2100 <= total <= 2325)
  /\ (forall strength slump : Z,
        In strength strength_options -> In slump slump_options ->
        exists m total,
          design_mix (PyInt strength) (PyInt slump) = Ok m
          /\ base_total m = Ok total
          /\ py_leb (PyInt 2100) total = true
          /\ py_leb total (PyInt 2325) = true).
Proof.
  split; [ | split ].
  - intros strength slump Hc.
    exists (design_mix_value strength slump). eexists.
    rewrite design_mix_ok by assumption.
    split; [ reflexivity | ]. split; [ reflexivity | ]. cbn. field.
  - intros strength slump [Hs1 Hs2] [Hl1 Hl2].
    exists (design_mix_value strength slump). eexists.
    rewrite design_mix_ok by lra.
    split; [ reflexivity | ]. split; [ reflexivity | ].
    cbn. rewrite !slump_term. split; lra.
  - intros strength slump Hs Hl.
    pose proof (on_select_boxes_spec _ select_boxes_total strength slump Hs Hl) as H.
    apply holds_inv in H as [m [Hm H]].
    apply holds_inv in H as [total [Ht H]].
    unfold py_between in H. apply andb_prop in H as [Hlo Hhi].
    exists m, total. repeat split; assumption.
Qed.

Lemma design_mix_total_mass_witness :
  exists m total,
    design_mix (30 : Q) 75 = Ok m
    /\ base_total m = Ok total
    /\ total == 2430 - 5 * 30 - 75 / 5.
Proof.
  apply (proj1 design_mix_total_mass 30 75). vm_compute. discriminate.
Defined.

Lemma select_boxes_ratio_range :
  on_select_boxes
    (fun s l =>
       holds (fun b => py_between (PyFloat 0.33) (PyFloat 0.58) (base_w_c_ratio b))
             (design_mix (PyInt s) (PyInt l))) = true.
Proof. by_evaluation. Qed.

(** X7. On the selectable ranges the water-cement ratio of the designed
    mix lies between 1/3 (strength 60, slump 25) and 4/7 (strength 20,
    slump 150); in Python's floats, on every pair of the select boxes,
    between 0.33 and 0.58. *)
Theorem design_mix_ratio_bounds :
  (forall strength slump : Q,
     20 <= strength <= 60 -> 25 <= slump <= 150 ->
     exists m,
       design_mix strength slump = Ok m
       /\ 1 # 3 <= base_w_c_ratio m <= 4 # 7)
  /\ (exists m_low m_high,
        design_mix (60 : Q) 25 = Ok m_low
        /\ base_w_c_ratio m_low == 1 # 3
        /\ design_mix (20 : Q) 150 = Ok m_high
        /\ base_w_c_ratio m_high == 4 # 7)
  /\ (forall strength slump : Z,
        In strength strength_options -> In slump slump_options ->
        exists m,
          design_mix (PyInt strength) (PyInt slump) = Ok m
          /\ py_leb (PyFloat 0.33) (base_w_c_ratio m) = true
          /\ py_leb (base_w_c_ratio m) (PyFloat 0.58) = true).
Proof.
  split; [ | split ].
  - intros strength slump [Hs1 Hs2] [Hl1 Hl2].
    exists (design_mix_value strength slump).
    rewrite design_mix_ok by lra.
    split; [ reflexivity | ]. cbn. rewrite slump_term. split.
    + apply Qle_shift_div_l; lra.
    + apply Qle_shift_div_r; lra.
  - exists (design_mix_value 60 25), (design_mix_value 20 150).
    repeat split; vm_compute; reflexivity.
  - intros strength slump Hs Hl.
    pose proof (on_select_boxes_spec _ select_boxes_ratio_range strength slump Hs Hl) as H.
    apply holds_inv in H as [m [Hm H]].
    unfold py_between in H. apply andb_prop in H as [Hlo Hhi].
    exists m. repeat split; assumption.
Qed.

Lemma design_mix_ratio_bounds_witness :
  exists m,
    design_mix (30 : Q) 75 = Ok m /\ 1 # 3 <= base_w_c_ratio m <= 4 # 7.
Proof.
  apply (proj1 design_mix_ratio_bounds 30 75); split; vm_compute; discriminate.
Defined.

(** X8. Where the masses of a designed mix change sign: cement is
    non-negative from strength -50 on, coarse aggregate up to strength 130,
    water from slump -1350 on and fine aggregate up to slump 2100.  The
    select boxes stay well inside; [design_mix] itself checks none of
    this. *)
Theorem design_mix_sign_thresholds :
  forall strength slump : Q,
    ~ 350 + (strength - 20) * 5 == 0 ->
    exists m,
      design_mix strength slump = Ok m
      /\ (0 <= base_Cement m <-> -50 <= strength)
      /\ (0 <= base_Coarse_Aggregate m <-> strength <= 130)
      /\ (0 <= base_Water m <-> -1350 <= slump)
      /\ (0 <= base_Fine_Aggregate m <-> slump <= 2100).
Proof.
  intros strength slump Hc.
  exists (design_mix_value strength slump).
  rewrite design_mix_ok by assumption.
  split; [ reflexivity | ]. cbn. rewrite !slump_term.
  repeat split; intros; lra.
Qed.

Lemma design_mix_sign_thresholds_witness :
  exists m,
    design_mix (140 : Q) 2200 = Ok m
    /\ (0 <= base_Cement m <-> -50 <= 140)
    /\ (0 <= base_Coarse_Aggregate m <-> 140 <= 130)
    /\ (0 <= base_Water m <-> -1350 <= 2200)
    /\ (0 <= base_Fine_Aggregate m <-> 2200 <= 2100).
Proof.
  apply (design_mix_sign_thresholds 140 2200). vm_compute. discriminate.
Defined.

(** X9. [design_mix] on Python ints, of any size.  When it returns, the
    cement and coarse aggregate entries are ints, computed without any
    rounding, and the strength was not -50.  At strength -50 it always
    raises, [ZeroDivisionError] for every slump of the select box.  An int
    too large for a float makes it raise [OverflowError]: in the division
    by the cement for a large strength, in [slump / 150] for a large
    slump. *)
Theorem design_mix_on_ints :
  (forall (strength slump : Z) (m : base_mix pynum),
     design_mix (PyInt strength) (PyInt slump) = Ok m ->
     base_Cement m = PyInt (350 + (strength - 20) * 5)
     /\ base_Coarse_Aggregate m = PyInt (1100 - (strength - 20) * 10)
     /\ strength <> (-50)%Z)
  /\ (forall slump : Z, exists e, design_mix (PyInt (-50)) (PyInt slump) = Raise e)
  /\ (forall slump : Z,
        In slump slump_options ->
        design_mix (PyInt (-50)) (PyInt slump) = Raise ZeroDivisionError)
  /\ design_mix (PyInt (10 ^ 400)) (PyInt 75) = Raise OverflowError
  /\ design_mix (PyInt 30) (PyInt (10 ^ 400)) = Raise OverflowError.
Proof.
  split; [ | split; [ | split; [ | split ] ] ].
  - apply design_mix_on_ints_inv.
  - intros slump.
    destruct (design_mix (PyInt (-50)) (PyInt slump)) as [m | e] eqn:E.
    + apply design_mix_on_ints_inv in E as (_ & _ & E). congruence.
    + exists e. reflexivity.
  - intros slump H. vm_compute in H.
    repeat (destruct H as [<- | H]; [ vm_compute; reflexivity | ]).
    contradiction.
  - vm_compute. reflexivity.
  - vm_compute. reflexivity.
Qed.

Lemma design_mix_on_ints_witness :
  base_Cement
    {| base_Cement := PyInt 400; base_Water := PyFloat 190;
       base_Fine_Aggregate := PyFloat 675; base_Coarse_Aggregate := PyInt 1000;
       base_w_c_ratio := PyFloat 0.475 |}
  = PyInt (350 + (30 - 20) * 5)
  /\ base_Coarse_Aggregate
       {| base_Cement := PyInt 400; base_Water := PyFloat 190;
          base_Fine_Aggregate := PyFloat 675; base_Coarse_Aggregate := PyInt 1000;
          base_w_c_ratio := PyFloat 0.475 |}
     = PyInt (1100 - (30 - 20) * 10)
  /\ 30%Z <> (-50)%Z.
Proof.
  apply (proj1 design_mix_on_ints 30%Z 75%Z). vm_compute. reflexivity.
Defined.

(** ** [optimize_mix]: the generator, the total mass, the ratio *)

Section GeneratorUse.

Context {T : Type} {number : Number T}.

(** In any arithmetic: the tape is never written, the generator moves
    forward by at most two draws, and by exactly two when a dict is
    returned. *)
Lemma optimize_mix_generator_any (base : base_mix T) (strength slump : T)
  (g : RandomState T) :
  let g' := snd (optimize_mix base strength slump g) in
  tape g' = tape g
  /\ (pos g <= pos g' <= pos g + 2)%nat
  /\ (forall o, fst (optimize_mix base strength slump g) = Ok o ->
                pos g' = (pos g + 2)%nat).
Proof.
  unfold optimize_mix, rbind, pure, uniform, val, lift2, bind. cbn.
  repeat match goal with
         | |- context [match ?x with _ => _ end] => destruct x eqn:?
         end;
    cbn; repeat split; try lia; try discriminate; intros; lia.
Qed.

End GeneratorUse.

(** X10. What [optimize_mix] does to the generator and when it fails.  In
    any arithmetic the tape of draws is only read, the generator advances
    by at most two draws, and by exactly two whenever a dict is returned.
    In rational arithmetic the call draws twice in every case, and it
    raises [ZeroDivisionError], after the two draws, exactly when the
    base cement is zero. *)
Theorem optimize_mix_generator :
  (forall (T : Type) (number : Number T) (base : base_mix T) (strength slump : T)
     (g : RandomState T),
     tape (snd (optimize_mix base strength slump g)) = tape g
     /\ (pos g <= pos (snd (optimize_mix base strength slump g)) <= pos g + 2)%nat
     /\ (forall o, fst (optimize_mix base strength slump g) = Ok o ->
                   pos (snd (optimize_mix base strength slump g)) = (pos g + 2)%nat))
  /\ (forall (base : base_mix Q) (strength slump : Q) (g : RandomState Q),
        snd (optimize_mix base strength slump g) = two_draws_later g
        /\ (base_Cement base == 0 <->
            fst (optimize_mix base strength slump g) = Raise ZeroDivisionError)
        /\ (~ base_Cement base == 0 <->
            exists o, fst (optimize_mix base strength slump g) = Ok o)).
Proof.
  split.
  - intros T number base strength slump g.
    apply optimize_mix_generator_any.
  - intros base strength slump g.
    destruct (Qeq_dec (base_Cement base) 0) as [Hc | Hc].
    + rewrite (optimize_mix_raise _ _ _ _ Hc). cbn.
      split; [ reflexivity | split; split ]; intros H; try tauto.
      destruct H as [o Ho]. discriminate.
    + rewrite (optimize_mix_ok _ _ _ _ Hc). cbn.
      split; [ reflexivity | split; split ]; intros H; try tauto; try discriminate.
      eexists. reflexivity.
Qed.

Lemma optimize_mix_generator_witness :
  pos (snd (optimize_mix (design_mix_value 30 75) 30 75 (draws 1 (-3)))) = (0 + 2)%nat.
Proof.
  refine (proj2 (proj2 (proj1 optimize_mix_generator Q Number_Q
                          (design_mix_value 30 75) 30 75 (draws 1 (-3)))) _ _).
  vm_compute. reflexivity.
Defined.

Lemma select_boxes_total_within (d1 d2 : float) :
  on_select_boxes (fun s l => holds (total_within 0x1p-41) (page_run s l d1 d2)) = true.
Proof. by_evaluation. Qed.

(** X11. The optimized mix weighs what the base mix weighs plus the two
    per cent of water added.  In rational arithmetic, whenever
    [optimize_mix] returns, its seven masses add up exactly to the four
    base masses plus 0.02 times the base water.  In Python's floats the
    two sums agree up to rounding only: on every pair of the select boxes
    and whatever the draws they are within [2^-41] of each other, and at
    strength 20 and slump 30 they differ (2327.6800000000003 against
    2327.68). *)
Theorem optimized_total_mass :
  (forall (base : base_mix Q) (strength slump : Q) (g : RandomState Q),
     ~ base_Cement base == 0 ->
     exists o total base_mass,
       optimize_mix base strength slump g = (Ok o, two_draws_later g)
       /\ optimized_total o = Ok total
       /\ base_total base = Ok base_mass
       /\ total == base_mass + 0.02 * base_Water base)
  /\ (forall (strength slump : Z) (d1 d2 : float),
        In strength strength_options -> In slump slump_options ->
        exists b o total expected,
          page_run strength slump d1 d2 = Ok (b, o)
          /\ optimized_total o = Ok total
          /\ base_total_with_added_water b = Ok expected
          /\ py_close 0x1p-41 total expected = true)
  /\ (exists b o,
        page_run 20 30 0 0 = Ok (b, o)
        /\ optimized_total o = Ok (PyFloat 2327.6800000000003)
        /\ base_total_with_added_water b = Ok (PyFloat 2327.68)).
Proof.
  split; [ | split ].
  - intros base strength slump g Hc.
    eexists. eexists. eexists.
    rewrite (optimize_mix_ok _ _ _ _ Hc).
    split; [ reflexivity | ]. split; [ reflexivity | ]. split; [ reflexivity | ].
    cbn. ring.
  - intros strength slump d1 d2 Hs Hl.
    pose proof (on_select_boxes_spec _ (select_boxes_total_within d1 d2)
                  strength slump Hs Hl) as H.
    apply holds_inv in H as [[b o] [Hr H]].
    unfold total_within in H.
    destruct (optimized_total o) as [total | ] eqn:Ht; [ | discriminate ].
    destruct (base_total_with_added_water b) as [expected | ] eqn:He; [ | discriminate ].
    exists b, o, total, expected. repeat split; assumption.
  - eexists. eexists.
    split; [ vm_compute; reflexivity | split; vm_compute; reflexivity ].
Qed.

Lemma optimized_total_mass_witness :
  exists o total base_mass,
    optimize_mix (design_mix_value 30 75) 30 75 (draws 1 (-3))
    = (Ok o, two_draws_later (draws 1 (-3)))
    /\ optimized_total o = Ok total
    /\ base_total (design_mix_value 30 75) = Ok base_mass
    /\ total == base_mass + 0.02 * base_Water (design_mix_value 30 75).
Proof.
  apply (proj1 optimized_total_mass (design_mix_value 30 75) 30 75 (draws 1 (-3))).
  vm_compute. discriminate.
Defined.

Lemma select_boxes_ratio_increases (d1 d2 : float) :
  on_select_boxes (fun s l => holds ratio_increases (page_run s l d1 d2)) = true.
Proof. by_evaluation. Qed.

(** X12. Optimizing always raises the water-cement ratio: for a designed
    mix with positive cement and water the optimized ratio is strictly
    above the base ratio, in rational arithmetic; and in Python's floats,
    for every pair of the select boxes and whatever the draws. *)
Theorem optimized_ratio_increases :
  (forall (strength slump strength' slump' : Q) (g : RandomState Q),
     -50 < strength -> -1350 < slump ->
     exists b o,
       design_mix strength slump = Ok b
       /\ optimize_mix b strength' slump' g = (Ok o, two_draws_later g)
       /\ base_w_c_ratio b < opt_w_c_ratio o)
  /\ (forall (strength slump : Z) (d1 d2 : float),
        In strength strength_options -> In slump slump_options ->
        exists b o,
          page_run strength slump d1 d2 = Ok (b, o)
          /\ py_ltb (base_w_c_ratio b) (opt_w_c_ratio o) = true).
Proof.
  split.
  - intros strength slump strength' slump' g Hs Hl.
    exists (design_mix_value strength slump). eexists.
    rewrite design_mix_ok by lra. split; [ reflexivity | ].
    rewrite optimize_mix_ok by (cbn; lra). split; [ reflexivity | ]. cbn.
    rewrite slump_term.
    set (w := 180 + _). set (c := 350 + _).
    assert (Hw : 0 < w) by (unfold w; lra).
    assert (Hc : 0 < c) by (unfold c; lra).
    apply Qlt_shift_div_l; [ lra | ].
    setoid_replace (w / c * (c * 0.7 + c * 0.3)) with w by (field; lra).
    lra.
  - intros strength slump d1 d2 Hs Hl.
    pose proof (on_select_boxes_spec _ (select_boxes_ratio_increases d1 d2)
                  strength slump Hs Hl) as H.
    apply holds_inv in H as [[b o] [Hr H]].
    exists b, o. split; assumption.
Qed.

Lemma optimized_ratio_increases_witness :
  exists b o,
    design_mix (30 : Q) 75 = Ok b
    /\ optimize_mix b 30 75 (draws 1 (-3)) = (Ok o, two_draws_later (draws 1 (-3)))
    /\ base_w_c_ratio b < opt_w_c_ratio o.
Proof.
  apply (proj1 optimized_ratio_increases 30 75 30 75); vm_compute; reflexivity.
Defined.

(** ** The page of [streamlit_app3.py]: what the tables show *)

(** *** Rounding to one decimal *)

Lemma round_half_even_close (p : Z) (q : positive) :
  (2 * Z.abs (round_half_even p q * Zpos q - p) <= Zpos q)%Z.
Proof.
  unfold round_half_even. cbv zeta.
  pose proof (Z.div_mod p (Zpos q) ltac:(discriminate)) as Hdm.
  pose proof (Z.mod_pos_bound p (Zpos q) ltac:(reflexivity)) as Hb.
  set (fl := (p / Zpos q)%Z) in *. set (r := (p mod Zpos q)%Z) in *.
  clearbody fl r.
  assert (Hlo : (fl * Zpos q - p = - r)%Z) by (rewrite Hdm; ring).
  assert (Hhi : ((fl + 1) * Zpos q - p = Zpos q - r)%Z) by (rewrite Hdm; ring).
  destruct (2 * r ?= Zpos q)%Z eqn:E.
  - apply Z.compare_eq in E. destruct (Z.even fl); rewrite ?Hlo, ?Hhi; lia.
  - rewrite Z.compare_lt_iff in E. rewrite Hlo. lia.
  - rewrite Z.compare_gt_iff in E. rewrite Hhi. lia.
Qed.

Lemma round_half_even_exact (n : Z) (q : positive) :
  round_half_even (n * Zpos q) q = n.
Proof.
  unfold round_half_even.
  rewrite Z.div_mul by discriminate. rewrite Z.mod_mul by discriminate.
  reflexivity.
Qed.

Lemma Q_round_tenths (x : Q) :
  Q_round x 1 == round_half_even (Qnum x * 10) (Qden x) # 10.
Proof.
  unfold Q_round. change (10 ^ Z.of_nat 1)%Z with 10%Z.
  unfold Qdiv, Qmult, Qinv, Qeq. cbn. lia.
Qed.

Lemma Q_round_close (x : Q) : x - (1 # 20) <= Q_round x 1 <= x + (1 # 20).
Proof.
  rewrite Q_round_tenths. destruct x as [p q].
  pose proof (round_half_even_close (p * 10) q) as H. cbn [Qnum Qden].
  set (n := round_half_even (p * 10) q) in *.
  unfold Qle, Qminus, Qplus, Qopp. cbn. split; lia.
Qed.

Lemma Q_round_idempotent (x : Q) : Q_round (Q_round x 1) 1 == Q_round x 1.
Proof.
  rewrite (Q_round_tenths (Q_round x 1)).
  set (n := round_half_even (Qnum x * 10) (Qden x)).
  assert (E : Q_round x 1 = (n * 1 # 1 * 10)) by reflexivity.
  rewrite E. cbn [Qnum Qden].
  replace (n * 1 * 10)%Z with (n * Zpos (1 * 10))%Z by lia.
  rewrite round_half_even_exact. unfold Qeq. cbn. lia.
Qed.

Lemma Q_round_of_ratio (r : Q) :
  1 # 3 <= r <= 4 # 7 ->
  Q_round r 1 == 0.3 \/ Q_round r 1 == 0.4 \/ Q_round r 1 == 0.5 \/ Q_round r 1 == 0.6.
Proof.
  intros [H1 H2]. rewrite Q_round_tenths. destruct r as [p q]. cbn [Qnum Qden].
  pose proof (round_half_even_close (p * 10) q) as H.
  set (n := round_half_even (p * 10) q) in *.
  unfold Qle in H1, H2. cbn in H1, H2.
  assert (Hn : (3 <= n <= 6)%Z) by nia.
  assert (n = 3 \/ n = 4 \/ n = 5 \/ n = 6)%Z as [-> | [-> | [-> | ->]]] by lia;
    [ left | right; left | right; right; left | right; right; right ]; reflexivity.
Qed.

(** *** The page in any arithmetic *)

Section PageAny.

Context {T : Type} {number : Number T} {rounding : Rounding T}.

Lemma round_base_inv (b r : base_mix T) :
  round_base b = Ok r ->
  round (base_Cement b) 1 = Ok (base_Cement r)
  /\ round (base_Water b) 1 = Ok (base_Water r)
  /\ round (base_Fine_Aggregate b) 1 = Ok (base_Fine_Aggregate r)
  /\ round (base_Coarse_Aggregate b) 1 = Ok (base_Coarse_Aggregate r)
  /\ round (base_w_c_ratio b) 1 = Ok (base_w_c_ratio r).
Proof.
  unfold round_base, bind. intros H.
  repeat match type of H with
         | context [match ?x with _ => _ end] => destruct x eqn:?; try discriminate
         end.
  apply Ok_inj in H. subst r. cbn. repeat split; reflexivity.
Qed.

Lemma page_base_table (strength slump : T) (button : bool) (g : RandomState T) :
  fst (fst (page strength slump button g))
  = bind (design_mix strength slump) round_base.
Proof.
  unfold page, bind.
  destruct (design_mix strength slump) as [b | e]; [ | reflexivity ].
  destruct (round_base b) as [r | e]; [ | reflexivity ].
  destruct button; [ | reflexivity ].
  destruct (optimize_mix b strength slump g) as [[o | e] g']; reflexivity.
Qed.

Lemma page_base_inv (strength slump : T) (button : bool) (g : RandomState T)
  (r : base_mix T) :
  fst (fst (page strength slump button g)) = Ok r ->
  exists b, design_mix strength slump = Ok b /\ round_base b = Ok r.
Proof.
  rewrite page_base_table. unfold bind.
  destruct (design_mix strength slump) as [b | e]; [ | discriminate ].
  intros H. exists b. split; [ reflexivity | exact H ].
Qed.

End PageAny.

Lemma select_boxes_shown_close :
  on_select_boxes (fun s l => holds shown_close (base_table s l)) = true.
Proof. by_evaluation. Qed.

Lemma select_boxes_shown_ratio :
  on_select_boxes (fun s l => holds shown_ratio (base_table s l)) = true.
Proof. by_evaluation. Qed.

Lemma select_boxes_shown_again :
  on_select_boxes (fun s l => holds shown_again (base_table s l)) = true.
Proof. by_evaluation. Qed.

(** X13. Every entry of the table of the base mix is within 0.05 of the
    value [design_mix] computed: in rational arithmetic whenever the mix
    exists, the button pressed or not; in Python, for every pair of the
    select boxes, where moreover the cement and coarse aggregate entries
    are shown as computed.  For int inputs of any size these two entries
    are the exact ints. *)
Theorem table_within_half_tenth :
  (forall (strength slump : Q) (button : bool) (g : RandomState Q),
     ~ 350 + (strength - 20) * 5 == 0 ->
     exists b r,
       design_mix strength slump = Ok b
       /\ fst (fst (page strength slump button g)) = Ok r
       /\ base_Cement b - (1 # 20) <= base_Cement r <= base_Cement b + (1 # 20)
       /\ base_Water b - (1 # 20) <= base_Water r <= base_Water b + (1 # 20)
       /\ base_Fine_Aggregate b - (1 # 20) <= base_Fine_Aggregate r
          <= base_Fine_Aggregate b + (1 # 20)
       /\ base_Coarse_Aggregate b - (1 # 20) <= base_Coarse_Aggregate r
          <= base_Coarse_Aggregate b + (1 # 20)
       /\ base_w_c_ratio b - (1 # 20) <= base_w_c_ratio r
          <= base_w_c_ratio b + (1 # 20))
  /\ (forall (strength slump : Z) (button : bool) (g : RandomState pynum)
        (r : base_mix pynum),
        fst (fst (page (PyInt strength) (PyInt slump) button g)) = Ok r ->
        base_Cement r = PyInt (350 + (strength - 20) * 5)
        /\ base_Coarse_Aggregate r = PyInt (1100 - (strength - 20) * 10))
  /\ (forall strength slump : Z,
        In strength strength_options -> In slump slump_options ->
        exists b r,
          design_mix (PyInt strength) (PyInt slump) = Ok b
          /\ fst (fst (page (PyInt strength) (PyInt slump) false
                         (draws (PyFloat 0) (PyFloat 0)))) = Ok r
          /\ py_eqb (base_Cement r) (base_Cement b) = true
          /\ py_eqb (base_Coarse_Aggregate r) (base_Coarse_Aggregate b) = true
          /\ py_close 0.05 (base_Water r) (base_Water b) = true
          /\ py_close 0.05 (base_Fine_Aggregate r) (base_Fine_Aggregate b) = true
          /\ py_close 0.05 (base_w_c_ratio r) (base_w_c_ratio b) = true).
Proof.
  split; [ | split ].
  - intros strength slump button g Hc.
    exists (design_mix_value strength slump). eexists.
    split; [ apply design_mix_ok, Hc | ].
    rewrite page_base_table, (design_mix_ok _ _ Hc).
    split; [ reflexivity | ]. cbn [base_Cement base_Water base_Fine_Aggregate
      base_Coarse_Aggregate base_w_c_ratio design_mix_value].
    repeat split; apply Q_round_close.
  - intros strength slump button g r H.
    apply page_base_inv in H as [b [Hb Hr]].
    apply design_mix_on_ints_inv in Hb as (Hc & Hco & _).
    apply round_base_inv in Hr as (Rc & _ & _ & Rco & _).
    rewrite Hc in Rc. rewrite Hco in Rco.
    apply Ok_inj in Rc, Rco. split; congruence.
  - intros strength slump Hs Hl.
    pose proof (on_select_boxes_spec _ select_boxes_shown_close strength slump Hs Hl) as H.
    apply holds_inv in H as [[b r] [Ht H]].
    unfold base_table in Ht.
    destruct (design_mix (PyInt strength) (PyInt slump)) as [b' | e]; [ | discriminate ].
    destruct (fst (fst (page _ _ _ _))) as [r' | e]; [ | discriminate ].
    apply Ok_inj in Ht. injection Ht as -> ->.
    unfold shown_close in H.
    repeat (apply andb_prop in H as [H ?]).
    exists b, r. repeat split; assumption.
Qed.

Lemma table_within_half_tenth_witness :
  exists b r,
    design_mix (30 : Q) 75 = Ok b
    /\ fst (fst (page (30 : Q) 75 true (draws 1 (-3)))) = Ok r
    /\ base_Cement b - (1 # 20) <= base_Cement r <= base_Cement b + (1 # 20)
    /\ base_Water b - (1 # 20) <= base_Water r <= base_Water b + (1 # 20)
    /\ base_Fine_Aggregate b - (1 # 20) <= base_Fine_Aggregate r
       <= base_Fine_Aggregate b + (1 # 20)
    /\ base_Coarse_Aggregate b - (1 # 20) <= base_Coarse_Aggregate r
       <= base_Coarse_Aggregate b + (1 # 20)
    /\ base_w_c_ratio b - (1 # 20) <= base_w_c_ratio r
       <= base_w_c_ratio b + (1 # 20).
Proof.
  apply (proj1 table_within_half_tenth 30 75 true (draws 1 (-3))).
  vm_compute. discriminate.
Defined.

(** X14. The table shows the water-cement ratio with one decimal only:
    on the selectable ranges the entry is one of 0.3, 0.4, 0.5 and 0.6, in
    rational arithmetic and, for every pair of the select boxes, in
    Python. *)
Theorem table_ratio_one_decimal :
  (forall (strength slump : Q) (button : bool) (g : RandomState Q),
     20 <= strength <= 60 -> 25 <= slump <= 150 ->
     exists r,
       fst (fst (page strength slump button g)) = Ok r
       /\ (base_w_c_ratio r == 0.3 \/ base_w_c_ratio r == 0.4
           \/ base_w_c_ratio r == 0.5 \/ base_w_c_ratio r == 0.6))
  /\ (forall strength slump : Z,
        In strength strength_options -> In slump slump_options ->
        exists r,
          fst (fst (page (PyInt strength) (PyInt slump) false
                      (draws (PyFloat 0) (PyFloat 0)))) = Ok r
          /\ existsb (py_eqb (base_w_c_ratio r))
               [PyFloat 0.3; PyFloat 0.4; PyFloat 0.5; PyFloat 0.6] = true).
Proof.
  split.
  - intros strength slump button g [Hs1 Hs2] [Hl1 Hl2].
    assert (Hc : ~ 350 + (strength - 20) * 5 == 0) by lra.
    eexists. rewrite page_base_table, (design_mix_ok _ _ Hc).
    split; [ reflexivity | ].
    cbn [base_w_c_ratio design_mix_value].
    apply Q_round_of_ratio. rewrite slump_term. split.
    + apply Qle_shift_div_l; lra.
    + apply Qle_shift_div_r; lra.
  - intros strength slump Hs Hl.
    pose proof (on_select_boxes_spec _ select_boxes_shown_ratio strength slump Hs Hl) as H.
    apply holds_inv in H as [[b r] [Ht H]].
    unfold base_table in Ht.
    destruct (design_mix (PyInt strength) (PyInt slump)) as [b' | e]; [ | discriminate ].
    destruct (fst (fst (page _ _ _ _))) as [r' | e]; [ | discriminate ].
    apply Ok_inj in Ht. injection Ht as -> ->.
    exists r. split; [ reflexivity | exact H ].
Qed.

Lemma table_ratio_one_decimal_witness :
  exists r,
    fst (fst (page (30 : Q) 75 true (draws 1 (-3)))) = Ok r
    /\ (base_w_c_ratio r == 0.3 \/ base_w_c_ratio r == 0.4
        \/ base_w_c_ratio r == 0.5 \/ base_w_c_ratio r == 0.6).
Proof.
  apply (proj1 table_ratio_one_decimal 30 75 true (draws 1 (-3)));
    split; vm_compute; discriminate.
Defined.

(** X15. What the button changes.  In any arithmetic: without the button
    no optimized table is shown and the generator is left as it was; the
    table of the base mix is the same with and without the button and
    whatever the generator; when [design_mix] raises nothing is shown and
    nothing is drawn, the button pressed or not; and when both tables are
    shown the generator has advanced by exactly two draws. *)
Theorem page_button :
  forall (T : Type) (number : Number T) (rounding : Rounding T)
    (strength slump : T) (g : RandomState T),
    page strength slump false g
    = (bind (design_mix strength slump) round_base, None, g)
    /\ (forall (button : bool) (g' : RandomState T),
          fst (fst (page strength slump button g'))
          = fst (fst (page strength slump false g)))
    /\ (forall (button : bool) (e : exn),
          design_mix strength slump = Raise e ->
          page strength slump button g = (Raise e, None, g))
    /\ (forall (results : base_mix T) (opt : optimized_mix T) (g' : RandomState T),
          page strength slump true g = (Ok results, Some (Ok opt), g') ->
          g' = two_draws_later g).
Proof.
  intros T number rounding strength slump g.
  split; [ | split; [ | split ] ].
  - unfold page, bind.
    destruct (design_mix strength slump) as [b | e]; [ | reflexivity ].
    destruct (round_base b) as [r | e]; reflexivity.
  - intros button g'. rewrite !page_base_table. reflexivity.
  - intros button e H. unfold page. now rewrite H.
  - intros results opt g'. unfold page.
    destruct (design_mix strength slump) as [b | e]; [ | discriminate ].
    destruct (round_base b) as [r | e]; [ | discriminate ].
    destruct (optimize_mix b strength slump g) as [[o | e] g''] eqn:E;
      [ | discriminate ].
    intros [= _ _ <-].
    apply optimize_mix_inv in E. intuition.
Qed.

Lemma page_button_witness :
  page (PyInt (-50)) (PyInt 75) true (draws (PyFloat 1) (PyFloat (-3)))
  = (Raise ZeroDivisionError, None, draws (PyFloat 1) (PyFloat (-3))).
Proof.
  apply (proj1 (proj2 (proj2 (page_button pynum Number_py Rounding_py
                                (PyInt (-50)) (PyInt 75)
                                (draws (PyFloat 1) (PyFloat (-3))))))).
  vm_compute. reflexivity.
Defined.

(** X16. Rounding a table that is already rounded changes nothing: the
    rounded entries are kept by a second [round(v, 1)], in rational
    arithmetic for every base mix and in Python for the table of every
    pair of the select boxes. *)
Theorem table_rounding_idempotent :
  (forall b : base_mix Q,
     exists r r',
       round_base b = Ok r
       /\ round_base r = Ok r'
       /\ base_Cement r' == base_Cement r
       /\ base_Water r' == base_Water r
       /\ base_Fine_Aggregate r' == base_Fine_Aggregate r
       /\ base_Coarse_Aggregate r' == base_Coarse_Aggregate r
       /\ base_w_c_ratio r' == base_w_c_ratio r)
  /\ (forall strength slump : Z,
        In strength strength_options -> In slump slump_options ->
        exists r r',
          fst (fst (page (PyInt strength) (PyInt slump) false
                      (draws (PyFloat 0) (PyFloat 0)))) = Ok r
          /\ round_base r = Ok r'
          /\ py_eqb (base_Cement r') (base_Cement r) = true
          /\ py_eqb (base_Water r') (base_Water r) = true
          /\ py_eqb (base_Fine_Aggregate r') (base_Fine_Aggregate r) = true
          /\ py_eqb (base_Coarse_Aggregate r') (base_Coarse_Aggregate r) = true
          /\ py_eqb (base_w_c_ratio r') (base_w_c_ratio r) = true).
Proof.
  split.
  - intros b. eexists. eexists.
    split; [ reflexivity | ]. split; [ reflexivity | ].
    cbn [base_Cement base_Water base_Fine_Aggregate base_Coarse_Aggregate
         base_w_c_ratio].
    repeat split; apply Q_round_idempotent.
  - intros strength slump Hs Hl.
    pose proof (on_select_boxes_spec _ select_boxes_shown_again strength slump Hs Hl) as H.
    apply holds_inv in H as [[b r] [Ht H]].
    unfold base_table in Ht.
    destruct (design_mix (PyInt strength) (PyInt slump)) as [b' | e]; [ | discriminate ].
    destruct (fst (fst (page _ _ _ _))) as [r0 | e]; [ | discriminate ].
    apply Ok_inj in Ht. injection Ht as -> ->.
    unfold shown_again in H. cbn [snd] in H.
    apply holds_inv in H as [r' [Hr' H]].
    repeat (apply andb_prop in H as [H ?]).
    exists r, r'. repeat split; assumption.
Qed.

Lemma table_rounding_idempotent_witness :
  exists r r',
    fst (fst (page (PyInt 20) (PyInt 25) false (draws (PyFloat 0) (PyFloat 0)))) = Ok r
    /\ round_base r = Ok r'
    /\ py_eqb (base_Cement r') (base_Cement r) = true
    /\ py_eqb (base_Water r') (base_Water r) = true
    /\ py_eqb (base_Fine_Aggregate r') (base_Fine_Aggregate r) = true
    /\ py_eqb (base_Coarse_Aggregate r') (base_Coarse_Aggregate r) = true
    /\ py_eqb (base_w_c_ratio r') (base_w_c_ratio r) = true.
Proof.
  apply (proj2 table_rounding_idempotent 20%Z 25%Z); vm_compute; tauto.
Defined.

Section OptimizedTable.

Context {T : Type} {number : Number T} {rounding : Rounding T}.

Lemma round_optimized_inv (o r : optimized_mix T) :
  round_optimized o = Ok r ->
  round (opt_Cement o) 1 = Ok (opt_Cement r)
  /\ round (opt_SCMs o) 1 = Ok (opt_SCMs r)
  /\ round (opt_Water o) 1 = Ok (opt_Water r)
  /\ round (opt_Fine_Aggregate o) 1 = Ok (opt_Fine_Aggregate r)
  /\ round (opt_Fine_Recycled_Agg o) 1 = Ok (opt_Fine_Recycled_Agg r)
  /\ round (opt_Coarse_Aggregate o) 1 = Ok (opt_Coarse_Aggregate r)
  /\ round (opt_Coarse_Recycled_Agg o) 1 = Ok (opt_Coarse_Recycled_Agg r)
  /\ round (opt_w_c_ratio o) 1 = Ok (opt_w_c_ratio r)
  /\ round (opt_New_Strength o) 1 = Ok (opt_New_Strength r)
  /\ round (opt_New_Slump o) 1 = Ok (opt_New_Slump r)
  /\ round (opt_CO2_Reduction o) 1 = Ok (opt_CO2_Reduction r)
  /\ round (opt_Cost_Reduction o) 1 = Ok (opt_Cost_Reduction r).
Proof.
  unfold round_optimized, bind. intros H.
  repeat match type of H with
         | context [match ?x with _ => _ end] => destruct x eqn:?; try discriminate
         end.
  apply Ok_inj in H. subst r. cbn. repeat split; reflexivity.
Qed.

Lemma page_optimized_inv (strength slump : T) (g g' : RandomState T)
  (results : base_mix T) (shown : optimized_mix T) :
  page strength slump true g = (Ok results, Some (Ok shown), g') ->
  exists b o,
    design_mix strength slump = Ok b
    /\ optimize_mix b strength slump g = (Ok o, g')
    /\ round_optimized o = Ok shown.
Proof.
  unfold page.
  destruct (design_mix strength slump) as [b | e]; [ | discriminate ].
  destruct (round_base b) as [r | e]; [ | discriminate ].
  destruct (optimize_mix b strength slump g) as [[o | e] g''] eqn:E;
    [ | discriminate ].
  intros [= _ H <-]. exists b, o. repeat split; assumption.
Qed.

End OptimizedTable.

Lemma py_mul_by_float (x r : pynum) (c : float) :
  py_mul x (PyFloat c) = Ok r -> exists f, r = PyFloat f.
Proof.
  destruct x as [z | f]; unfold py_mul, coerce, bind.
  - destruct (int_to_float z) as [f | e]; [ | discriminate ].
    intros H. apply Ok_inj in H. eexists. symmetry. exact H.
  - intros H. apply Ok_inj in H. eexists. symmetry. exact H.
Qed.

(** X17. The table of the optimized mix.  In rational arithmetic, for a
    mix that exists, pressing the button shows a table whose masses, ratio
    and two estimates are within 0.05 of what [optimize_mix] computed,
    the two reductions being shown as 25 and 15.  In Python, whatever the
    int inputs and the draws, a table that is shown has the ints 25 and 15
    as its two reductions, while its cement entry is a float even though
    the base cement is an int. *)
Theorem optimized_table_entries :
  (forall (strength slump : Q) (g : RandomState Q),
     ~ 350 + (strength - 20) * 5 == 0 ->
     exists b o shown,
       design_mix strength slump = Ok b
       /\ optimize_mix b strength slump g = (Ok o, two_draws_later g)
       /\ snd (fst (page strength slump true g)) = Some (Ok shown)
       /\ opt_Cement o - (1 # 20) <= opt_Cement shown <= opt_Cement o + (1 # 20)
       /\ opt_SCMs o - (1 # 20) <= opt_SCMs shown <= opt_SCMs o + (1 # 20)
       /\ opt_Water o - (1 # 20) <= opt_Water shown <= opt_Water o + (1 # 20)
       /\ opt_Fine_Aggregate o - (1 # 20) <= opt_Fine_Aggregate shown
          <= opt_Fine_Aggregate o + (1 # 20)
       /\ opt_Fine_Recycled_Agg o - (1 # 20) <= opt_Fine_Recycled_Agg shown
          <= opt_Fine_Recycled_Agg o + (1 # 20)
       /\ opt_Coarse_Aggregate o - (1 # 20) <= opt_Coarse_Aggregate shown
          <= opt_Coarse_Aggregate o + (1 # 20)
       /\ opt_Coarse_Recycled_Agg o - (1 # 20) <= opt_Coarse_Recycled_Agg shown
          <= opt_Coarse_Recycled_Agg o + (1 # 20)
       /\ opt_w_c_ratio o - (1 # 20) <= opt_w_c_ratio shown
          <= opt_w_c_ratio o + (1 # 20)
       /\ opt_New_Strength o - (1 # 20) <= opt_New_Strength shown
          <= opt_New_Strength o + (1 # 20)
       /\ opt_New_Slump o - (1 # 20) <= opt_New_Slump shown
          <= opt_New_Slump o + (1 # 20)
       /\ opt_CO2_Reduction shown == 25
       /\ opt_Cost_Reduction shown == 15)
  /\ (forall (strength slump : Z) (g g' : RandomState pynum)
        (results : base_mix pynum) (shown : optimized_mix pynum),
        page (PyInt strength) (PyInt slump) true g = (Ok results, Some (Ok shown), g') ->
        opt_CO2_Reduction shown = PyInt 25
        /\ opt_Cost_Reduction shown = PyInt 15
        /\ exists f, opt_Cement shown = PyFloat f).
Proof.
  split.
  - intros strength slump g Hc.
    exists (design_mix_value strength slump).
    exists (optimize_mix_value (design_mix_value strength slump) strength slump g).
    eexists.
    split; [ apply design_mix_ok, Hc | ].
    split; [ apply optimize_mix_ok, Hc | ].
    split.
    + unfold page. rewrite (design_mix_ok _ _ Hc).
      change (round_base (design_mix_value strength slump))
        with (Ok {| base_Cement := Q_round (base_Cement (design_mix_value strength slump)) 1;
                    base_Water := Q_round (base_Water (design_mix_value strength slump)) 1;
                    base_Fine_Aggregate :=
                      Q_round (base_Fine_Aggregate (design_mix_value strength slump)) 1;
                    base_Coarse_Aggregate :=
                      Q_round (base_Coarse_Aggregate (design_mix_value strength slump)) 1;
                    base_w_c_ratio :=
                      Q_round (base_w_c_ratio (design_mix_value strength slump)) 1 |}).
      cbv iota beta.
      rewrite (optimize_mix_ok (design_mix_value strength slump) strength slump g Hc).
      reflexivity.
    + cbn [opt_Cement opt_SCMs opt_Water opt_Fine_Aggregate opt_Fine_Recycled_Agg
           opt_Coarse_Aggregate opt_Coarse_Recycled_Agg opt_w_c_ratio
           opt_New_Strength opt_New_Slump opt_CO2_Reduction opt_Cost_Reduction].
      repeat split; try apply Q_round_close; vm_compute; reflexivity.
  - intros strength slump g g' results shown H.
    apply page_optimized_inv in H as (b & o & Hb & Ho & Hr).
    apply optimize_mix_inv in Ho
      as (Hc & _ & _ & _ & _ & _ & _ & _ & _ & _ & Hco2 & Hcost & _).
    apply round_optimized_inv in Hr
      as (Rc & _ & _ & _ & _ & _ & _ & _ & _ & _ & Rco2 & Rcost).
    rewrite Hco2 in Rco2. rewrite Hcost in Rcost.
    apply Ok_inj in Rco2, Rcost.
    split; [ congruence | split; [ congruence | ] ].
    apply py_mul_by_float in Hc as [f Hf]. rewrite Hf in Rc.
    cbn in Rc. unfold bind in Rc.
    destruct (float_round f 1) as [f' | e]; [ | discriminate ].
    apply Ok_inj in Rc. exists f'. congruence.
Qed.

Lemma optimized_table_entries_witness :
  exists results shown g',
    page (PyInt 30) (PyInt 75) true (draws (PyFloat 1.25) (PyFloat (-3.5)))
    = (Ok results, Some (Ok shown), g')
    /\ opt_CO2_Reduction shown = PyInt 25
    /\ opt_Cost_Reduction shown = PyInt 15
    /\ exists f, opt_Cement shown = PyFloat f.
Proof.
  eexists. eexists. eexists.
  split; [ vm_compute; reflexivity | ].
  eapply (proj2 optimized_table_entries 30%Z 75%Z
            (draws (PyFloat 1.25) (PyFloat (-3.5)))).
  vm_compute. reflexivity.
Defined.

(** ** The select boxes *)

Lemma range_spec (start stop : Z) (step : positive) (x : Z) :
  In x (range start stop step)
  <-> (start <= x < stop)%Z /\ ((x - start) mod Zpos step = 0)%Z.
Proof.
  unfold range.
  assert (Hstep : (0 < Zpos step)%Z) by lia.
  generalize dependent (Zpos step). clear step. intros step Hstep.
  rewrite in_map_iff. split.
  - intros [k [<- Hk]]. apply in_seq in Hk as [_ Hk]. cbn in Hk.
    assert (Hpos : (0 <= (stop - start + step - 1) / step)%Z \/
                   ((stop - start + step - 1) / step < 0)%Z) by lia.
    destruct Hpos as [Hpos | Hneg]; [ | lia ].
    pose proof (Z.mul_div_le (stop - start + step - 1) step Hstep) as Hle.
    split.
    + nia.
    + replace (start + step * Z.of_nat k - start)%Z with (Z.of_nat k * step)%Z by ring.
      apply Z.mod_mul. lia.
  - intros [[Hlo Hhi] Hmod].
    apply Z.mod_divide in Hmod; [ | lia ]. destruct Hmod as [k Hk].
    assert (Hk0 : (0 <= k)%Z) by nia.
    exists (Z.to_nat k). split; [ rewrite Z2Nat.id by assumption; lia | ].
    apply in_seq. split; [ lia | ]. cbn.
    apply Z2Nat.inj_lt; [ assumption | | ].
    + apply Z.div_pos; lia.
    + apply Z.lt_le_trans with (k + 1)%Z; [ lia | ].
      apply Z.div_le_lower_bound; [ assumption | ]. nia.
Qed.

(** X18. What the two select boxes offer: [range(20, 65, 5)] is exactly
    the multiples of 5 from 20 to 60 and [range(25, 155, 5)] the multiples
    of 5 from 25 to 150; the stops 65 and 155 themselves are not offered.
    In general a range with a positive step holds the values
    [start + k * step] that are below [stop], and nothing when
    [stop <= start]. *)
Theorem select_box_options :
  (forall strength : Z,
     In strength strength_options
     <-> (20 <= strength <= 60)%Z /\ (strength mod 5 = 0)%Z)
  /\ (forall slump : Z,
        In slump slump_options
        <-> (25 <= slump <= 150)%Z /\ (slump mod 5 = 0)%Z)
  /\ (forall (start stop : Z) (step : positive) (x : Z),
        In x (range start stop step)
        <-> (start <= x < stop)%Z /\ ((x - start) mod Zpos step = 0)%Z)
  /\ (forall (start stop : Z) (step : positive),
        (stop <= start)%Z -> range start stop step = []).
Proof.
  split; [ | split; [ | split ] ].
  - intros strength. unfold strength_options.
    rewrite range_spec.
    rewrite (Z.mod_divide (strength - 20) 5), (Z.mod_divide strength 5) by lia.
    split; intros [H [k Hk]]; (split; [ lia | ]).
    + exists (k + 4)%Z. lia.
    + exists (k - 4)%Z. lia.
  - intros slump. unfold slump_options.
    rewrite range_spec.
    rewrite (Z.mod_divide (slump - 25) 5), (Z.mod_divide slump 5) by lia.
    split; intros [H [k Hk]]; (split; [ lia | ]).
    + exists (k + 5)%Z. lia.
    + exists (k - 5)%Z. lia.
  - apply range_spec.
  - intros start stop step Hle. unfold range.
    assert (H : ((stop - start + Zpos step - 1) / Zpos step <= 0)%Z).
    { apply Z.lt_succ_r. apply Z.div_lt_upper_bound; lia. }
    replace (Z.to_nat ((stop - start + Zpos step - 1) / Zpos step)) with 0%nat by lia.
    reflexivity.
Qed.

Lemma select_box_options_witness :
  range 65 20 5 = [].
Proof.
  apply (proj2 (proj2 (proj2 select_box_options)) 65%Z 20%Z 5%positive). lia.
Defined.
